(** * Redfish exporter: the performance collector

    A shallow embedding of [collectors/performance_collector.py]
    (class [PerformanceCollector]) and the properties of its power,
    thermal and fan reconciliation.

    Conventions of the embedding:
    - a JSON document, as Python's [json] module hands it to the collector,
      is a [pyval]; a [dict] is an association list in insertion order
      (Python dictionaries keep insertion order and have unique keys);
    - a finite Python [float] is an exact rational: rounding and overflow
      of IEEE doubles are outside the model, not-a-number and the two
      infinities are kept;
    - the collector mutates four gauge families and writes log records:
      this is a state, threaded by a state-and-exception monad in which a
      raised exception keeps the state reached so far;
    - [connect_server] belongs to the surrounding collector: it is a
      field of the collector record, every call is recorded in the state. *)

From Stdlib Require Import List String Ascii Bool ZArith SpecFloat Lia.
Import ListNotations.
Local Open Scope string_scope.
Local Open Scope Z_scope.
Local Open Scope list_scope.

Set Implicit Arguments.

(** ** Python values *)

(** a [float]: an IEEE 754 value, with signed zeros, infinities and NaN *)
Definition pyfloat : Type := spec_float.

#[warnings="-register-all"]
Inductive pyval : Type :=
| PNone
| PBool (b : bool)
| PInt (z : Z)
| PFloat (f : pyfloat)
| PStr (s : string)
| PList (l : list pyval)
| PDict (d : list (string * pyval)).

Definition dict : Type := list (string * pyval).

Inductive exn : Type :=
| KeyError
| TypeError
| AttributeError
| ValueError
| ZeroDivisionError
| IndexError
| OverflowError
| ConnectionError.

Inductive outcome (A : Type) : Type :=
| Ok (a : A)
| Raise (e : exn).
Arguments Raise {A} e.

Definition obind {A B} (o : outcome A) (k : A -> outcome B) : outcome B :=
  match o with
  | Ok a => k a
  | Raise e => Raise e
  end.

Declare Scope outcome_scope.
Delimit Scope outcome_scope with out.
Notation "x <- m ;; k" := (obind m (fun x => k))
  (at level 61, m at next level, right associativity) : outcome_scope.

(** [math.nan] *)
Definition nan : pyval := PFloat S754_nan.

(** ** Dictionaries *)

Fixpoint dict_get (k : string) (d : dict) : option pyval :=
  match d with
  | [] => None
  | (k', v) :: d' => if String.eqb k k' then Some v else dict_get k d'
  end.

Definition dict_mem (k : string) (d : dict) : bool :=
  match dict_get k d with
  | Some _ => true
  | None => false
  end.

(** [d[k] = v]: an existing key keeps its place, a new key goes last. *)
Fixpoint dict_set (k : string) (v : pyval) (d : dict) : dict :=
  match d with
  | [] => [(k, v)]
  | (k', v') :: d' =>
      if String.eqb k k' then (k', v) :: d' else (k', v') :: dict_set k v d'
  end.

(** [d.update(other)] *)
Definition dict_update (d other : dict) : dict :=
  fold_left (fun acc kv => dict_set (fst kv) (snd kv) acc) other d.

Definition dict_keys (d : dict) : list string := map fst d.

(** A dictionary as Python builds it has no repeated key. *)
Definition dict_wf (d : dict) : Prop := NoDup (dict_keys d).

(** ** Strings *)

Fixpoint is_prefix (p s : string) : bool :=
  match p, s with
  | EmptyString, _ => true
  | String a p', String b s' => Ascii.eqb a b && is_prefix p' s'
  | String _ _, EmptyString => false
  end.

(** [p in s] for two strings *)
Fixpoint is_substring (p s : string) : bool :=
  is_prefix p s ||
  match s with
  | EmptyString => false
  | String _ s' => is_substring p s'
  end.

Definition chars_of (s : string) : list pyval :=
  map (fun c => PStr (String c EmptyString)) (list_ascii_of_string s).

(** ** Operators on values *)

Definition is_none (v : pyval) : bool :=
  match v with
  | PNone => true
  | _ => false
  end.

Definition is_dict (v : pyval) : bool :=
  match v with
  | PDict _ => true
  | _ => false
  end.

Definition fzero (f : pyfloat) : bool :=
  match f with
  | S754_zero _ => true
  | _ => false
  end.

(** truth value of [v] in a condition *)
Definition truthy (v : pyval) : bool :=
  match v with
  | PNone => false
  | PBool b => b
  | PInt z => negb (Z.eqb z 0)
  | PFloat f => negb (fzero f)
  | PStr s => negb (String.eqb s "")
  | PList l => match l with [] => false | _ => true end
  | PDict d => match d with [] => false | _ => true end
  end.

(** [v == s] for a string literal [s] *)
Definition eq_str (v : pyval) (s : string) : bool :=
  match v with
  | PStr s' => String.eqb s' s
  | _ => false
  end.

(** [k in v] for a string literal [k] *)
Definition py_contains (k : string) (v : pyval) : outcome bool :=
  match v with
  | PDict d => Ok (dict_mem k d)
  | PList l => Ok (existsb (fun e => eq_str e k) l)
  | PStr s => Ok (is_substring k s)
  | _ => Raise TypeError
  end.

(** [l[i]] for a sequence of [n] items: a negative index counts from the end *)
Definition seq_index {A} (l : list A) (i : Z) : outcome A :=
  let n := Z.of_nat (List.length l) in
  let j := if i <? 0 then i + n else i in
  if (j <? 0) || (n <=? j) then Raise IndexError
  else
    match nth_error l (Z.to_nat j) with
    | Some x => Ok x
    | None => Raise IndexError
    end.

(** [v[k]] *)
Definition py_index (v k : pyval) : outcome pyval :=
  match v with
  | PDict d =>
      match k with
      | PStr s =>
          match dict_get s d with
          | Some x => Ok x
          | None => Raise KeyError
          end
      | PList _ | PDict _ => Raise TypeError
      | _ => Raise KeyError
      end
  | PList l =>
      match k with
      | PInt i => seq_index l i
      | PBool b => seq_index l (Z.b2z b)
      | _ => Raise TypeError
      end
  | PStr s =>
      match k with
      | PInt i => seq_index (chars_of s) i
      | PBool b => seq_index (chars_of s) (Z.b2z b)
      | _ => Raise TypeError
      end
  | _ => Raise TypeError
  end.

(** [v[k]] for a string literal [k] *)
Definition py_getitem (v : pyval) (k : string) : outcome pyval := py_index v (PStr k).

(** [v.get(k, default)] *)
Definition py_get (v : pyval) (k : string) (default : pyval) : outcome pyval :=
  match v with
  | PDict d =>
      match dict_get k d with
      | Some x => Ok x
      | None => Ok default
      end
  | _ => Raise AttributeError
  end.

(** the items a [for] loop over [v] visits *)
Definition py_iter (v : pyval) : outcome (list pyval) :=
  match v with
  | PList l => Ok l
  | PDict d => Ok (map PStr (dict_keys d))
  | PStr s => Ok (chars_of s)
  | _ => Raise TypeError
  end.

(** [v in {"Percent", "%"}]: membership in a set hashes [v] first *)
Definition in_percent_units (v : pyval) : outcome bool :=
  match v with
  | PList _ | PDict _ => Raise TypeError
  | _ => Ok (eq_str v "Percent" || eq_str v "%")
  end.

(** ** Numbers *)

(** A [float] is an IEEE 754 binary64 value: 53 bits of precision, the
    largest finite value just below [2 ^ 1024], every operation rounded to
    the nearest value, ties to even. *)

Definition fadd (a b : pyfloat) : pyfloat := SFadd 53 1024 a b.

Definition fdiv (a b : pyfloat) : pyfloat := SFdiv 53 1024 a b.

(** the nearest double to the integer [z], an infinity beyond the range *)
Definition float_of_Z (z : Z) : pyfloat := binary_normalize 53 1024 z 0 false.

(** an [int] converted to a [float]: [OverflowError] beyond the range *)
Definition int_to_float (z : Z) : outcome pyfloat :=
  match float_of_Z z with
  | S754_infinity _ => Raise OverflowError
  | f => Ok f
  end.

(** [a / n] for two [int]s, [n] positive: the exact quotient rounded once *)
Definition int_true_div (a : Z) (n : positive) : outcome pyfloat :=
  match a with
  | Z0 => Ok (S754_zero false)
  | _ =>
      let '(q, e, l) := SFdiv_core_binary 53 1024 (Z.abs a) 0 (Zpos n) 0 in
      match binary_round_aux 53 1024 (a <? 0) q e l with
      | S754_infinity _ => Raise OverflowError
      | f => Ok f
      end
  end.

(** the running total of [sum]: an [int] until a [float] is added *)
Inductive num : Type :=
| NInt (z : Z)
| NFloat (f : pyfloat).

(** [acc + z] for an [int] [z] *)
Definition num_add_int (acc : num) (z : Z) : outcome num :=
  match acc with
  | NInt a => Ok (NInt (a + z))
  | NFloat f => obind (int_to_float z) (fun g => Ok (NFloat (fadd f g)))
  end.

(** [acc + v] *)
Definition num_add (acc : num) (v : pyval) : outcome num :=
  match v with
  | PInt z => num_add_int acc z
  | PBool b => num_add_int acc (Z.b2z b)
  | PFloat g =>
      match acc with
      | NInt a => obind (int_to_float a) (fun f => Ok (NFloat (fadd f g)))
      | NFloat f => Ok (NFloat (fadd f g))
      end
  | _ => Raise TypeError
  end.

(** [sum(values)], from the start value [0], adding from left to right,
    as CPython does up to 3.11. (From 3.12 on [sum] carries a compensation
    term while it adds floats; the two agree on integers, on what raises,
    and on floats whenever the partial sums are exact.) *)
Fixpoint py_sum_from (acc : num) (values : list pyval) : outcome num :=
  match values with
  | [] => Ok acc
  | v :: rest => obind (num_add acc v) (fun acc' => py_sum_from acc' rest)
  end.

Definition py_sum (values : list pyval) : outcome num := py_sum_from (NInt 0) values.

(** [total / n] for the length [n] of a list *)
Definition num_div (total : num) (n : Z) : outcome pyfloat :=
  match n with
  | Zpos p =>
      match total with
      | NInt a => int_true_div a p
      | NFloat f => Ok (fdiv f (float_of_Z n))
      end
  | _ => Raise ZeroDivisionError
  end.

(** [sum(values) / len(values)] *)
Definition py_mean (values : list pyval) : outcome pyval :=
  obind (py_sum values) (fun total =>
    obind (num_div total (Z.of_nat (List.length values))) (fun f =>
      Ok (PFloat f))).

(** ** [float(value)] *)

(** A [str] is held as its UTF-8 encoding; [code_points] gives its code
    points back, [None] for bytes that encode no string. *)
Fixpoint utf8_decode (l : list ascii) (pending : nat) (acc low : Z) : option (list Z) :=
  match l with
  | [] => match pending with O => Some [] | S _ => None end
  | c :: l' =>
      let b := Z.of_nat (nat_of_ascii c) in
      match pending with
      | O =>
          if b <? 128 then option_map (cons b) (utf8_decode l' 0 0 0)
          else if (194 <=? b) && (b <? 224) then utf8_decode l' 1 (b - 192) 128
          else if (224 <=? b) && (b <? 240) then utf8_decode l' 2 (b - 224) 2048
          else if (240 <=? b) && (b <? 245) then utf8_decode l' 3 (b - 240) 65536
          else None
      | S p =>
          if (128 <=? b) && (b <? 192) then
            let acc' := acc * 64 + (b - 128) in
            match p with
            | O =>
                if (low <=? acc') && (acc' <? 1114112)
                then option_map (cons acc') (utf8_decode l' 0 0 0)
                else None
            | S _ => utf8_decode l' p acc' low
            end
          else None
      end
  end.

(** the string whose encoding is the bytes [l] *)
Definition string_of_bytes (l : list nat) : string :=
  string_of_list_ascii (map ascii_of_nat l).

Definition code_points (s : string) : option (list Z) :=
  utf8_decode (list_ascii_of_string s) 0 0 0.

(** the code points for which [str.isspace] holds *)
Definition unicode_space (c : Z) : bool :=
  (9 <=? c) && (c <=? 13) || (28 <=? c) && (c <=? 32) || (c =? 133) || (c =? 160)
  || (c =? 5760) || (8192 <=? c) && (c <=? 8202) || (c =? 8232) || (c =? 8233)
  || (c =? 8239) || (c =? 8287) || (c =? 12288).

(** the digit zero of every run of ten decimal digits (Unicode 14) *)
Definition decimal_zeros : list Z :=
  [48; 1632; 1776; 1984; 2406; 2534; 2662; 2790; 2918; 3046; 3174; 3302;
   3430; 3558; 3664; 3792; 3872; 4160; 4240; 6112; 6160; 6470; 6608; 6784;
   6800; 6992; 7088; 7232; 7248; 42528; 43216; 43264; 43472; 43504; 43600;
   44016; 65296; 66720; 68912; 69734; 69872; 69942; 70096; 70384; 70736;
   70864; 71248; 71360; 71472; 71904; 72016; 72784; 73040; 73120; 92768;
   92864; 93008; 120782; 120792; 120802; 120812; 120822; 123200; 123632;
   125264; 130032].

(** the value of a decimal digit *)
Definition unicode_decimal (c : Z) : option Z :=
  match find (fun z => (z <=? c) && (c <? z + 10)) decimal_zeros with
  | Some z => Some (c - z)
  | None => None
  end.

(** [float] first maps a string to ASCII: a space beyond ASCII becomes a
    blank, a decimal digit its ASCII digit, any other code point beyond ASCII
    a question mark *)
Definition to_ascii (c : Z) : ascii :=
  if c <? 127 then ascii_of_nat (Z.to_nat c)
  else if unicode_space c then " "%char
  else
    match unicode_decimal c with
    | Some d => ascii_of_nat (Z.to_nat (48 + d))
    | None => "?"%char
    end.

(** then it strips the ASCII white space; the separators U+001C to U+001F
    are not stripped *)
Definition is_space (c : ascii) : bool :=
  let n := nat_of_ascii c in
  ((9 <=? n) && (n <=? 13) || (n =? 32))%nat.

Fixpoint lstrip (l : list ascii) : list ascii :=
  match l with
  | c :: l' => if is_space c then lstrip l' else l
  | [] => []
  end.

Definition strip (l : list ascii) : list ascii := rev (lstrip (rev (lstrip l))).

Definition digit_of (c : ascii) : option Z :=
  let n := nat_of_ascii c in
  if ((48 <=? n) && (n <=? 57))%nat then Some (Z.of_nat (n - 48)) else None.

Definition lower (c : ascii) : ascii :=
  let n := nat_of_ascii c in
  if ((65 <=? n) && (n <=? 90))%nat then ascii_of_nat (n + 32) else c.

(** what follows the first digit of a digit part: [(["_"] digit)*] *)
Fixpoint digit_run (l : list ascii) : list Z * list ascii :=
  match l with
  | [] => ([], [])
  | c :: l' =>
      match digit_of c with
      | Some d => let '(ds, r) := digit_run l' in (d :: ds, r)
      | None =>
          if Ascii.eqb c "_" then
            match l' with
            | c2 :: l'' =>
                match digit_of c2 with
                | Some d => let '(ds, r) := digit_run l'' in (d :: ds, r)
                | None => ([], l)
                end
            | [] => ([], l)
            end
          else ([], l)
      end
  end.

(** [digitpart ::= digit (["_"] digit)*] *)
Definition digitpart (l : list ascii) : option (list Z * list ascii) :=
  match l with
  | c :: l' =>
      match digit_of c with
      | Some d => let '(ds, r) := digit_run l' in Some (d :: ds, r)
      | None => None
      end
  | [] => None
  end.

(** [number ::= [digitpart] "." digitpart | digitpart ["."]]: the digits
    before the point, those after it, and the rest of the input *)
Definition number (l : list ascii) : option (list Z * list Z * list ascii) :=
  match digitpart l with
  | Some (ip, r) =>
      match r with
      | c :: r' =>
          if Ascii.eqb c "." then
            match digitpart r' with
            | Some (fp, r'') => Some (ip, fp, r'')
            | None => Some (ip, [], r')
            end
          else Some (ip, [], r)
      | [] => Some (ip, [], r)
      end
  | None =>
      match l with
      | c :: r' =>
          if Ascii.eqb c "." then
            match digitpart r' with
            | Some (fp, r'') => Some ([], fp, r'')
            | None => None
            end
          else None
      | [] => None
      end
  end.

Definition split_sign (l : list ascii) : bool * list ascii :=
  match l with
  | c :: r =>
      if Ascii.eqb c "-" then (true, r)
      else if Ascii.eqb c "+" then (false, r)
      else (false, l)
  | [] => (false, l)
  end.

Definition digits_value (ds : list Z) : Z :=
  fold_left (fun acc d => 10 * acc + d) ds 0.

(** [exponent ::= ("e" | "E") [sign] digitpart], up to the end of the input *)
Definition exponent (l : list ascii) : option Z :=
  match l with
  | [] => Some 0
  | c :: r =>
      if Ascii.eqb (lower c) "e" then
        let '(neg, r') := split_sign r in
        match digitpart r' with
        | Some (ds, []) => Some (if neg then - digits_value ds else digits_value ds)
        | _ => None
        end
      else None
  end.

(** the double nearest to [m * 10 ^ e], with the sign [neg]: the conversion
    of a decimal literal is correctly rounded, and gives an infinity beyond
    the range *)
Definition decimal_float (neg : bool) (m e : Z) : pyfloat :=
  match m with
  | Zpos p =>
      if 0 <=? e then binary_round 53 1024 neg (Z.to_pos (Zpos p * 10 ^ e)) 0
      else
        let '(q, e', l) := SFdiv_core_binary 53 1024 (Zpos p) 0 (10 ^ (- e)) 0 in
        binary_round_aux 53 1024 neg q e' l
  | _ => S754_zero neg
  end.

(** a number, or [inf], [infinity] or [nan] in any case, with a sign *)
Definition parse_float (l : list ascii) : option pyfloat :=
  let '(neg, body) := split_sign (strip l) in
  let low := string_of_list_ascii (map lower body) in
  if String.eqb low "inf" || String.eqb low "infinity" then Some (S754_infinity neg)
  else if String.eqb low "nan" then Some S754_nan
  else
    match number body with
    | Some (ip, fp, r) =>
        match exponent r with
        | Some e =>
            Some (decimal_float neg (digits_value (ip ++ fp)) (e - Z.of_nat (List.length fp)))
        | None => None
        end
    | None => None
    end.

(** [float(s)] for a string, [None] where Python raises [ValueError] *)
Definition float_of_string (s : string) : option pyfloat :=
  match code_points s with
  | Some cs => parse_float (map to_ascii cs)
  | None => None
  end.

Definition py_float (v : pyval) : outcome pyval :=
  match v with
  | PFloat f => Ok (PFloat f)
  | PInt z => obind (int_to_float z) (fun f => Ok (PFloat f))
  | PBool b => obind (int_to_float (Z.b2z b)) (fun f => Ok (PFloat f))
  | PStr s =>
      match float_of_string s with
      | Some f => Ok (PFloat f)
      | None => Raise ValueError
      end
  | PNone | PList _ | PDict _ => Raise TypeError
  end.

(** ** Gauges, log records and the collector's state *)

(** a sample as [GaugeMetricFamily.add_sample] stores it *)
Record Sample : Type := mkSample {
  sample_name : string;
  sample_labels : dict;
  sample_value : pyval
}.

Inductive level : Type := DEBUG | INFO | WARNING.

(** a call of [logging.debug], [logging.info] or [logging.warning]: the
    format string and its arguments *)
Record log_record : Type := mkLog {
  log_level : level;
  log_format : string;
  log_args : list pyval
}.

(** the four gauge families of [PerformanceCollector.__init__] that the
    collection writes to, the log, and the URLs given to
    [connect_server] so far, each in the order of the calls *)
Record state : Type := mkState {
  power_metrics : list Sample;
  temperature_metrics : list Sample;
  fan_speed_metrics : list Sample;
  fan_pwm_metrics : list Sample;
  log : list log_record;
  requests : list pyval
}.

Definition initial_state : state := mkState [] [] [] [] [] [].

(** Modelled from the spec: the surrounding [RedfishMetricsCollector]
    ([self.col]), whose module is not part of these sources. [urls] is
    the resource locator set, a mapping from slot name to an optional URL
    in which every slot the collector reads is filled ([None] or the empty
    string when the target does not advertise it); [labels] is the base
    label mapping; [connect_server] fetches the JSON document of a URL or
    raises. *)
Record RedfishMetricsCollector : Type := mkCollector {
  target : string;
  host : string;
  model : string;
  labels : dict;
  urls : string -> pyval;
  connect_server : pyval -> outcome pyval
}.

(** ** The monad of the collection: state and exceptions *)

Definition M (A : Type) : Type := state -> outcome A * state.

Definition ret {A} (a : A) : M A := fun s => (Ok a, s).

Definition bind {A B} (m : M A) (k : A -> M B) : M B :=
  fun s =>
    match m s with
    | (Ok a, s') => k a s'
    | (Raise e, s') => (Raise e, s')
    end.

Definition lift {A} (o : outcome A) : M A := fun s => (o, s).

Declare Scope py_scope.
Delimit Scope py_scope with py.
Notation "x <- m ;; k" := (bind m (fun x => k))
  (at level 61, m at next level, right associativity) : py_scope.
Notation "' pat <- m ;; k" := (bind m (fun x => match x with pat => k end))
  (at level 61, pat pattern, m at next level, right associativity) : py_scope.
Notation "m ;; k" := (bind m (fun _ => k))
  (at level 61, right associativity) : py_scope.
Local Open Scope py_scope.

(** [for x in xs: body] *)
Fixpoint for_each {A} (xs : list A) (body : A -> M unit) : M unit :=
  match xs with
  | [] => ret tt
  | x :: rest => body x ;; for_each rest body
  end.

(** [for x in xs: body], where the body updates local variables [acc] *)
Fixpoint for_fold {A B} (xs : list A) (acc : B) (body : B -> A -> M B) : M B :=
  match xs with
  | [] => ret acc
  | x :: rest => acc' <- body acc x ;; for_fold rest acc' body
  end.

Definition logging (l : level) (fmt : string) (args : list pyval) : M unit :=
  fun s =>
    (Ok tt,
     mkState (power_metrics s) (temperature_metrics s) (fan_speed_metrics s)
       (fan_pwm_metrics s) (log s ++ [mkLog l fmt args]) (requests s)).

Definition add_power_sample (name : string) (value : pyval) (lbls : dict) : M unit :=
  fun s =>
    (Ok tt,
     mkState (power_metrics s ++ [mkSample name lbls value]) (temperature_metrics s)
       (fan_speed_metrics s) (fan_pwm_metrics s) (log s) (requests s)).

Definition add_temperature_sample (name : string) (value : pyval) (lbls : dict) : M unit :=
  fun s =>
    (Ok tt,
     mkState (power_metrics s) (temperature_metrics s ++ [mkSample name lbls value])
       (fan_speed_metrics s) (fan_pwm_metrics s) (log s) (requests s)).

Definition add_fan_speed_sample (name : string) (value : pyval) (lbls : dict) : M unit :=
  fun s =>
    (Ok tt,
     mkState (power_metrics s) (temperature_metrics s)
       (fan_speed_metrics s ++ [mkSample name lbls value]) (fan_pwm_metrics s)
       (log s) (requests s)).

Definition add_fan_pwm_sample (name : string) (value : pyval) (lbls : dict) : M unit :=
  fun s =>
    (Ok tt,
     mkState (power_metrics s) (temperature_metrics s) (fan_speed_metrics s)
       (fan_pwm_metrics s ++ [mkSample name lbls value]) (log s) (requests s)).

(** [math.nan if v is None else v] *)
Definition nan_if_none (v : pyval) : pyval := if is_none v then nan else v.

(** ** The collector *)

Section PerformanceCollector.

Variable col : RedfishMetricsCollector.

(** [self.col.connect_server(url)] *)
Definition connect (url : pyval) : M pyval :=
  fun s =>
    (connect_server col url,
     mkState (power_metrics s) (temperature_metrics s) (fan_speed_metrics s)
       (fan_pwm_metrics s) (log s) (requests s ++ [url])).

(** the arguments of the warnings that name the target *)
Definition identity : list pyval := [PStr (target col); PStr (host col); PStr (model col)].

(** the body of the loop over the readings of a power supply *)
Definition power_supply_reading (power_supply_labels : dict) (power_supply_metrics : pyval)
    (metric : string) : M unit :=
  let current_labels := dict_update [("type", PStr metric)] power_supply_labels in
  present <- lift (py_contains metric power_supply_metrics) ;;
  if negb present then ret tt
  else
    entry <- lift (py_getitem power_supply_metrics metric) ;;
    reading <- lift (py_getitem entry "Reading") ;;
    add_power_sample "redfish_power" (nan_if_none reading) current_labels.

(** the loop over the identity fields of a power supply *)
Definition power_supply_fields (power_supply_data : pyval) : M dict :=
  let fields := ["Name"; "Manufacturer"; "Model"] in
  for_fold fields [] (fun power_supply_labels field =>
    v <- lift (py_get power_supply_data field (PStr "unknown")) ;;
    ret (dict_update power_supply_labels [(field, v)])).

Definition get_power_supply_metrics (power_supply : pyval) : M bool :=
  let metrics := ["PowerInputWatts"; "PowerOutputWatts"; "PowerCapacityWatts"] in
  url <- lift (py_getitem power_supply "@odata.id") ;;
  power_supply_data <- connect url ;;
  has_metrics <- lift (py_contains "Metrics" power_supply_data) ;;
  if negb has_metrics then
    name <- lift (py_get power_supply_data "Name" (PStr "unknown")) ;;
    logging WARNING
      "Target %s, Host %s, Model %s: No power supply metrics url found for %s."
      (identity ++ [name]) ;;
    ret true
  else
    named <- power_supply_fields power_supply_data ;;
    let power_supply_labels := dict_update named (labels col) in
    link <- lift (py_getitem power_supply_data "Metrics") ;;
    power_supply_metrics_url <- lift (py_getitem link "@odata.id") ;;
    power_supply_metrics <- connect power_supply_metrics_url ;;
    for_each metrics (power_supply_reading power_supply_labels power_supply_metrics) ;;
    ret false.

(** the body of the loop over [CapacityWatts] and [Allocation] *)
Definition power_subsystem_field (power_subsystem : pyval) (metric : string) : M unit :=
  present <- lift (py_contains metric power_subsystem) ;;
  if negb present then ret tt
  else
    field <- lift (py_getitem power_subsystem metric) ;;
    match field with
    | PDict sub =>
        for_each (dict_keys sub) (fun submetric =>
          let current_labels := dict_update [("type", PStr submetric)] (labels col) in
          v <- lift (py_getitem field submetric) ;;
          add_power_sample "redfish_power" (nan_if_none v) current_labels)
    | _ =>
        let current_labels := dict_update [("type", PStr metric)] (labels col) in
        add_power_sample "redfish_power" (nan_if_none field) current_labels
    end.

Definition get_power_subsystem_metrics : M bool :=
  logging DEBUG "Target %s:Checking PowerSubsystem ..." [PStr (target col)] ;;
  power_subsystem <- connect (urls col "PowerSubsystem") ;;
  for_each ["CapacityWatts"; "Allocation"] (power_subsystem_field power_subsystem) ;;
  pointer <- lift (py_get power_subsystem "PowerSupplies" (PDict [])) ;;
  power_supplies_url <- lift (py_get pointer "@odata.id" PNone) ;;
  if negb (truthy power_supplies_url) then
    logging WARNING "Target %s, Host %s, Model %s: No power supplies url found." identity ;;
    ret true
  else
    collection <- connect power_supplies_url ;;
    members <- lift (py_getitem collection "Members") ;;
    power_supplies <- lift (py_iter members) ;;
    for_fold power_supplies true (fun _ power_supply =>
      get_power_supply_metrics power_supply).

(** ['unknown' if psu.get(key, 'unknown') is None else psu.get(key, 'unknown')] *)
Definition unknown_if_none (psu : pyval) (key : string) : outcome pyval :=
  (v <- py_get psu key (PStr "unknown") ;;
   if is_none v then Ok (PStr "unknown") else py_get psu key (PStr "unknown"))%out.

Definition get_old_power_metrics : M bool :=
  logging DEBUG "Target %s: Fallback to deprecated Power URL." [PStr (target col)] ;;
  power_data <- connect (urls col "Power") ;;
  if negb (truthy power_data) then ret true
  else
    let metrics :=
      ["PowerOutputWatts"; "EfficiencyPercent"; "PowerInputWatts"; "LineInputVoltage"] in
    supplies <- lift (py_getitem power_data "PowerSupplies") ;;
    psus <- lift (py_iter supplies) ;;
    for_fold psus true (fun no_psu_metrics psu =>
      psu_name <- lift (unknown_if_none psu "Name") ;;
      psu_model <- lift (unknown_if_none psu "Model") ;;
      for_fold metrics no_psu_metrics (fun no_psu_metrics metric =>
        present <- lift (py_contains metric psu) ;;
        if negb present then ret no_psu_metrics
        else
          v <- lift (py_getitem psu metric) ;;
          let current_labels :=
            dict_update
              [("device_name", psu_name); ("device_model", psu_model); ("type", PStr metric)]
              (labels col) in
          add_power_sample "redfish_power" (nan_if_none v) current_labels ;;
          ret false)).

Definition get_power_metrics : M unit :=
  logging INFO "Target %s: Get the PDU Power data." [PStr (target col)] ;;
  no_psu_metrics <-
    (if truthy (urls col "PowerSubsystem") then get_power_subsystem_metrics else ret true) ;;
  (if truthy (urls col "Power") && no_psu_metrics
   then _ <- get_old_power_metrics ;; ret tt
   else ret tt) ;;
  if no_psu_metrics then
    logging WARNING "Target %s, Host %s, Model %s: No power url found." identity
  else ret tt.

Definition get_temp_metrics : M unit :=
  logging INFO "Target %s: Get the Thermal data." [PStr (target col)] ;;
  if truthy (urls col "ThermalSubsystem") then
    thermal_subsystem <- connect (urls col "ThermalSubsystem") ;;
    pointer <- lift (py_getitem thermal_subsystem "ThermalMetrics") ;;
    thermal_metrics_url <- lift (py_getitem pointer "@odata.id") ;;
    result <- connect thermal_metrics_url ;;
    thermal_metrics <- lift (py_get result "TemperatureSummaryCelsius" (PDict [])) ;;
    names <- lift (py_iter thermal_metrics) ;;
    for_each names (fun metric =>
      let current_labels := dict_update [("type", metric)] (labels col) in
      entry <- lift (py_index thermal_metrics metric) ;;
      reading <- lift (py_getitem entry "Reading") ;;
      add_temperature_sample "redfish_temperature" (nan_if_none reading) current_labels)
  else ret tt.

(** [_rpm_from_fan]: [PNone] stands for the result [None] *)
Definition _rpm_from_fan (fan_obj : pyval) : outcome pyval :=
  (if negb (truthy fan_obj) then Ok PNone
   else
     units <- py_get fan_obj "ReadingUnits" PNone ;;
     by_units <-
       (if eq_str units "RPM"
        then r <- py_get fan_obj "Reading" PNone ;; Ok (negb (is_none r))
        else Ok false) ;;
     if by_units then py_getitem fan_obj "Reading"
     else
       r <- py_get fan_obj "ReadingRPM" PNone ;;
       if negb (is_none r) then py_getitem fan_obj "ReadingRPM" else Ok PNone)%out.

(** the value [_pwm_from_fan] has chosen when it reaches its [try] *)
Definition pwm_value (fan_obj : pyval) : outcome pyval :=
  (let value := PNone in
   units <- py_get fan_obj "ReadingUnits" PNone ;;
   in_units <- in_percent_units units ;;
   by_units <-
     (if in_units
      then r <- py_get fan_obj "Reading" PNone ;; Ok (negb (is_none r))
      else Ok false) ;;
   value <- (if by_units then py_getitem fan_obj "Reading" else Ok value) ;;
   value <-
     fold_left
       (fun acc key =>
          value <- acc ;;
          if is_none value then
            r <- py_get fan_obj key PNone ;;
            if negb (is_none r) then py_getitem fan_obj key else Ok value
          else Ok value)
       ["DutyCyclePercent"; "ReadingPercent"] (Ok value) ;;
   if is_none value then
     oem <- py_get fan_obj "Oem" (PDict []) ;;
     dell <- py_get oem "Dell" (PDict []) ;;
     py_get dell "FanPWM" PNone
   else Ok value)%out.

(** [try: return float(value) if value is not None else None]
    [except (ValueError, TypeError): return None] *)
Definition float_or_none (value : pyval) : outcome pyval :=
  match (if is_none value then Ok PNone else py_float value) with
  | Ok v => Ok v
  | Raise ValueError | Raise TypeError => Ok PNone
  | Raise e => Raise e
  end.

Definition _pwm_from_fan (fan_obj : pyval) : outcome pyval :=
  (if negb (truthy fan_obj) then Ok PNone
   else value <- pwm_value fan_obj ;; float_or_none value)%out.

(** the two [if (x := ...) is not None: ... .append(x)] of a fan *)
Definition append_fan (values : list pyval * list pyval) (fan : pyval)
  : M (list pyval * list pyval) :=
  let '(rpm_values, pwm_values) := values in
  rpm <- lift (_rpm_from_fan fan) ;;
  let rpm_values := if negb (is_none rpm) then rpm_values ++ [rpm] else rpm_values in
  pwm <- lift (_pwm_from_fan fan) ;;
  let pwm_values := if negb (is_none pwm) then pwm_values ++ [pwm] else pwm_values in
  ret (rpm_values, pwm_values).

(** the block of [get_fan_metrics] on the [ThermalSubsystem] locator *)
Definition fan_subsystem_pass (values : list pyval * list pyval)
  : M (list pyval * list pyval) :=
  if truthy (urls col "ThermalSubsystem") then
    ts_data <- connect (urls col "ThermalSubsystem") ;;
    pointer <- lift (py_get ts_data "Fans" (PDict [])) ;;
    fans_url <- lift (py_get pointer "@odata.id" PNone) ;;
    if truthy fans_url then
      collection <- connect fans_url ;;
      listed <- lift (py_get collection "Members" (PList [])) ;;
      members <- lift (py_iter listed) ;;
      for_fold members values (fun values member =>
        url <- lift (py_getitem member "@odata.id") ;;
        fan_data <- connect url ;;
        append_fan values fan_data)
    else ret values
  else ret values.

(** the block of [get_fan_metrics] on the deprecated [Thermal] locator *)
Definition fan_thermal_pass (values : list pyval * list pyval)
  : M (list pyval * list pyval) :=
  if negb (truthy (PList (fst values))) && truthy (urls col "Thermal") then
    thermal <- connect (urls col "Thermal") ;;
    listed <- lift (py_get thermal "Fans" (PList [])) ;;
    fans <- lift (py_iter listed) ;;
    for_fold fans values append_fan
  else ret values.

(** the end of [get_fan_metrics]: the two averages *)
Definition fan_averages (values : list pyval * list pyval) : M unit :=
  let '(rpm_values, pwm_values) := values in
  let labels := dict_update [("type", PStr "average")] (labels col) in
  (if truthy (PList rpm_values) then
     avg_rpm <- lift (py_mean rpm_values) ;;
     add_fan_speed_sample "redfish_fan_speed_rpm" avg_rpm labels
   else
     logging WARNING "Target %s, Host %s, Model %s: No fan RPM data found." identity) ;;
  if truthy (PList pwm_values) then
    avg_pwm <- lift (py_mean pwm_values) ;;
    add_fan_pwm_sample "redfish_fan_speed_pwm_percent" avg_pwm labels
  else
    logging WARNING "Target %s, Host %s, Model %s: No fan PWM data found." identity.

Definition get_fan_metrics : M unit :=
  logging INFO "Target %s: Gathering fan data …" [PStr (target col)] ;;
  values <- fan_subsystem_pass ([], []) ;;
  values <- fan_thermal_pass values ;;
  fan_averages values.

Definition collect : M unit :=
  logging INFO "Target %s: Collecting performance data ..." [PStr (target col)] ;;
  get_power_metrics ;;
  get_temp_metrics ;;
  get_fan_metrics.

End PerformanceCollector.

(** ** Targets for concrete runs *)

(** a target that serves the documents of [graph] and refuses any other URL *)
Definition serve (graph : dict) (url : pyval) : outcome pyval :=
  match url with
  | PStr u =>
      match dict_get u graph with
      | Some doc => Ok doc
      | None => Raise ConnectionError
      end
  | _ => Raise ConnectionError
  end.

(** the locator set that advertises the slots of [slots] and no other *)
Definition locators (slots : dict) (slot : string) : pyval :=
  match dict_get slot slots with
  | Some url => url
  | None => PNone
  end.

Definition base_labels : dict :=
  [("host", PStr "bmc01"); ("server_model", PStr "R740")].

Definition target_of (slots graph : dict) : RedfishMetricsCollector :=
  mkCollector "bmc01" "bmc01" "R740" base_labels (locators slots) (serve graph).

Definition link (url : string) : pyval := PDict [("@odata.id", PStr url)].

(** a target that advertises both power schemas: the first supply of the
    [PowerSubsystem] has readings, the last one has no [Metrics] link *)
Definition power_graph : dict :=
  [("/ps", PDict [("CapacityWatts", PNone); ("PowerSupplies", link "/ps/supplies")]);
   ("/ps/supplies", PDict [("Members", PList [link "/ps/1"; link "/ps/2"])]);
   ("/ps/1", PDict [("Name", PStr "PSU1"); ("Metrics", link "/ps/1/metrics")]);
   ("/ps/1/metrics", PDict [("PowerInputWatts", PDict [("Reading", PInt 100)])]);
   ("/ps/2", PDict [("Name", PStr "PSU2")]);
   ("/power",
    PDict [("PowerSupplies",
            PList [PDict [("Name", PStr "Old"); ("PowerOutputWatts", PInt 90)]])])].

Definition both_power_schemas : RedfishMetricsCollector :=
  target_of [("PowerSubsystem", PStr "/ps"); ("Power", PStr "/power")] power_graph.

Definition modern_power_only : RedfishMetricsCollector :=
  target_of [("PowerSubsystem", PStr "/ps")] power_graph.

Definition deprecated_power_only : RedfishMetricsCollector :=
  target_of [("Power", PStr "/power")] power_graph.

(** a target whose [ThermalSubsystem] fan reports a duty cycle and no
    speed, and whose deprecated [Thermal] resource reports both *)
Definition fan_graph : dict :=
  [("/ts", PDict [("Fans", link "/ts/fans"); ("ThermalMetrics", link "/ts/metrics")]);
   ("/ts/metrics",
    PDict [("TemperatureSummaryCelsius",
            PDict [("CPU", PDict [("Reading", PInt 45)]);
                   ("Ambient", PDict [("Reading", PInt 22)])])]);
   ("/ts/fans", PDict [("Members", PList [link "/ts/fans/1"])]);
   ("/ts/fans/1", PDict [("DutyCyclePercent", PInt 50)]);
   ("/thermal",
    PDict [("Fans",
            PList [PDict [("ReadingRPM", PInt 1000); ("DutyCyclePercent", PInt 100)]])])].

Definition both_fan_schemas : RedfishMetricsCollector :=
  target_of [("ThermalSubsystem", PStr "/ts"); ("Thermal", PStr "/thermal")] fan_graph.


Definition deprecated_thermal_only : RedfishMetricsCollector :=
  target_of [("Thermal", PStr "/thermal")] fan_graph.

(** a target whose [ThermalSubsystem] resource has no [ThermalMetrics]
    pointer, next to a deprecated [Thermal] resource with a fan *)
Definition no_thermal_metrics : RedfishMetricsCollector :=
  target_of [("ThermalSubsystem", PStr "/ts"); ("Thermal", PStr "/thermal")]
    [("/ts", PDict [("Name", PStr "Thermal Subsystem")]);
     ("/thermal", PDict [("Fans", PList [PDict [("ReadingRPM", PInt 1000)]])])].



(** a target whose only power supply has a [Metrics] resource in which
    [PowerInputWatts] is null and [PowerOutputWatts] has a reading *)
Definition null_supply_metric : RedfishMetricsCollector :=
  target_of [("PowerSubsystem", PStr "/ps")]
    [("/ps", PDict [("CapacityWatts", PNone); ("PowerSupplies", link "/ps/supplies")]);
     ("/ps/supplies", PDict [("Members", PList [link "/ps/1"])]);
     ("/ps/1", PDict [("Name", PStr "PSU1"); ("Metrics", link "/ps/1/metrics")]);
     ("/ps/1/metrics",
      PDict [("PowerInputWatts", PNone);
             ("PowerOutputWatts", PDict [("Reading", PInt 90)])])].

(** a target whose power supply's [Metrics] resource carries its own
    identifier next to the readings *)
Definition supply_with_identifier : RedfishMetricsCollector :=
  target_of [("PowerSubsystem", PStr "/ps")]
    [("/ps", PDict [("PowerSupplies", link "/ps/supplies")]);
     ("/ps/supplies", PDict [("Members", PList [link "/ps/1"])]);
     ("/ps/1", PDict [("Name", PStr "PSU1"); ("Metrics", link "/ps/1/metrics")]);
     ("/ps/1/metrics",
      PDict [("@odata.id", PStr "/ps/1/metrics");
             ("Id", PStr "Metrics");
             ("PowerInputWatts", PDict [("Reading", PInt 100)]);
             ("PowerOutputWatts", PDict [("Reading", PNone)])])].

(** ** Vocabulary of the properties *)

(** the samples of every gauge family *)
Definition all_samples (s : state) : list Sample :=
  power_metrics s ++ temperature_metrics s ++ fan_speed_metrics s ++ fan_pwm_metrics s.

(** a label mapping carries every base label with the base value *)
Definition carries_base (base lbls : dict) : Prop :=
  forall k v, dict_get k base = Some v -> dict_get k lbls = Some v.

(** every sample of every gauge family carries the base labels *)
Definition labelled (base : dict) (s : state) : Prop :=
  Forall (fun smp => carries_base base (sample_labels smp)) (all_samples s).

(** [m] keeps the property [P] of the state, whatever its outcome, and a
    value it returns satisfies [Q] *)
Definition keeps {A} (P : state -> Prop) (Q : A -> Prop) (m : M A) : Prop :=
  forall s, P s -> P (snd (m s)) /\ forall a, fst (m s) = Ok a -> Q a.

Definition anything {A} (a : A) : Prop := True.

(** the warnings of a log with a given format string *)
Definition warnings_of (fmt : string) (l : list log_record) : list log_record :=
  filter (fun r => match log_level r with
                   | WARNING => String.eqb (log_format r) fmt
                   | _ => false
                   end) l.

Definition no_power_url : string := "Target %s, Host %s, Model %s: No power url found.".
Definition no_rpm_data : string := "Target %s, Host %s, Model %s: No fan RPM data found.".
Definition no_pwm_data : string := "Target %s, Host %s, Model %s: No fan PWM data found.".


(** a [float] *)
Definition is_float (v : pyval) : bool :=
  match v with
  | PFloat _ => true
  | _ => false
  end.


(** the average of a list, [None] for an empty one *)
Definition average_of (values : list pyval) : outcome (option pyval) :=
  match values with
  | [] => Ok None
  | _ :: _ => obind (py_mean values) (fun m => Ok (Some m))
  end.

(** the non-[None] results among [vs] *)
Definition present (vs : list pyval) : list pyval := filter (fun v => negb (is_none v)) vs.

(** ** Per-fan PWM extraction as the specification words it

    The candidates of the specification, in its order: [Reading] when
    [ReadingUnits] is ["Percent"] or ["%"], then [DutyCyclePercent], then
    [ReadingPercent], then the nested [Oem.Dell.FanPWM]; the first one
    that is present and not null is coerced to a float; a coercion that
    fails with [ValueError] or [TypeError] counts as absent, any other
    exception of the coercion is raised. *)

Definition non_null (o : option pyval) : option pyval :=
  match o with
  | Some PNone => None
  | other => other
  end.





Fixpoint first_present (candidates : list (option pyval)) : option pyval :=
  match candidates with
  | [] => None
  | Some v :: _ => Some v
  | None :: rest => first_present rest
  end.

Definition coerced (v : pyval) : outcome pyval :=
  match py_float v with
  | Ok f => Ok f
  | Raise ValueError | Raise TypeError => Ok PNone
  | Raise e => Raise e
  end.




(** an entry of [TemperatureSummaryCelsius]: an object with a [Reading] *)
Definition has_reading (entry : pyval) : bool :=
  match entry with
  | PDict e => dict_mem "Reading" e
  | _ => false
  end.

Definition reading_of (entry : pyval) : pyval :=
  match py_getitem entry "Reading" with
  | Ok r => r
  | Raise _ => PNone
  end.

(** the state after [samples] have been added to the power gauge *)
Definition with_power (s : state) (samples : list Sample) : state :=
  mkState (power_metrics s ++ samples) (temperature_metrics s)
    (fan_speed_metrics s) (fan_pwm_metrics s) (log s) (requests s).

(** the sample of one entry of [TemperatureSummaryCelsius] *)
Definition summary_sample (base : dict) (entry : string * pyval) : Sample :=
  mkSample "redfish_temperature"
    (dict_update [("type", PStr (fst entry))] base)
    (nan_if_none (reading_of (snd entry))).

(** the state after [get_temp_metrics] has fetched [fetched] and emitted
    [samples] *)
Definition after_thermal (col : RedfishMetricsCollector) (s : state)
    (fetched : list pyval) (samples : list Sample) : state :=
  mkState (power_metrics s) (temperature_metrics s ++ samples)
    (fan_speed_metrics s) (fan_pwm_metrics s)
    (log s ++ [mkLog INFO "Target %s: Get the Thermal data." [PStr (target col)]])
    (requests s ++ fetched).

(** ** Vocabulary of the further properties *)

(** the state after a pass has added [power] to the power gauge, written
    [records] to the log and fetched [fetches] *)
Definition grow (s : state) (power : list Sample) (records : list log_record)
    (fetches : list pyval) : state :=
  mkState (power_metrics s ++ power) (temperature_metrics s)
    (fan_speed_metrics s) (fan_pwm_metrics s) (log s ++ records) (requests s ++ fetches).

(** [s'] holds everything [s] holds, in the same order, and maybe more *)
Definition extends (s s' : state) : Prop :=
  (exists more, power_metrics s' = power_metrics s ++ more) /\
  (exists more, temperature_metrics s' = temperature_metrics s ++ more) /\
  (exists more, fan_speed_metrics s' = fan_speed_metrics s ++ more) /\
  (exists more, fan_pwm_metrics s' = fan_pwm_metrics s ++ more) /\
  (exists more, log s' = log s ++ more) /\
  (exists more, requests s' = requests s ++ more).

(** the candidates of [_rpm_from_fan], in its order *)
Definition rpm_units (fan : dict) : bool :=
  match dict_get "ReadingUnits" fan with
  | Some u => eq_str u "RPM"
  | None => false
  end.

Definition rpm_candidates (fan : dict) : list (option pyval) :=
  [ (if rpm_units fan then non_null (dict_get "Reading" fan) else None);
    non_null (dict_get "ReadingRPM" fan) ].

Definition rpm_by_priority (fan : dict) : pyval :=
  match first_present (rpm_candidates fan) with
  | Some v => v
  | None => PNone
  end.

(** a name or model of the deprecated schema: ["unknown"] when the key is
    absent or null *)
Definition or_unknown (psu : dict) (key : string) : pyval :=
  match dict_get key psu with
  | None | Some PNone => PStr "unknown"
  | Some v => v
  end.

(** the samples of the deprecated schema for the metrics of [metrics]
    that one supply has *)
Definition psu_samples (base : dict) (metrics : list string) (psu : dict) : list Sample :=
  flat_map
    (fun metric =>
       match dict_get metric psu with
       | Some v =>
           [mkSample "redfish_power"
              (dict_update
                 [("device_name", or_unknown psu "Name");
                  ("device_model", or_unknown psu "Model");
                  ("type", PStr metric)] base)
              (nan_if_none v)]
       | None => []
       end) metrics.

Definition old_power_metrics : list string :=
  ["PowerOutputWatts"; "EfficiencyPercent"; "PowerInputWatts"; "LineInputVoltage"].

Definition is_empty {A} (l : list A) : bool :=
  match l with
  | [] => true
  | _ :: _ => false
  end.

(** an identity field of the modern schema: ["unknown"] when the key is
    absent, the value as it is (null too) when present *)
Definition field_or_unknown (data : dict) (field : string) : pyval :=
  match dict_get field data with
  | Some v => v
  | None => PStr "unknown"
  end.

(** the labels of a power supply of the modern schema, before [type] *)
Definition supply_labels (base data : dict) : dict :=
  dict_update
    [("Name", field_or_unknown data "Name");
     ("Manufacturer", field_or_unknown data "Manufacturer");
     ("Model", field_or_unknown data "Model")] base.

(** the samples of a power supply of the modern schema, from its detail
    resource [data] and its metrics resource [readings] *)
Definition supply_samples (base data readings : dict) : list Sample :=
  flat_map
    (fun metric =>
       match dict_get metric readings with
       | Some entry =>
           [mkSample "redfish_power"
              (dict_update [("type", PStr metric)] (supply_labels base data))
              (nan_if_none (reading_of entry))]
       | None => []
       end) ["PowerInputWatts"; "PowerOutputWatts"; "PowerCapacityWatts"].

(** the samples of a direct field of the [PowerSubsystem] resource *)
Definition field_samples (base ps : dict) (metric : string) : list Sample :=
  match dict_get metric ps with
  | None => []
  | Some (PDict sub) =>
      map (fun submetric =>
             mkSample "redfish_power" (dict_update [("type", PStr submetric)] base)
               (nan_if_none (match dict_get submetric sub with
                             | Some v => v
                             | None => PNone
                             end)))
        (dict_keys sub)
  | Some v => [mkSample "redfish_power" (dict_update [("type", PStr metric)] base) (nan_if_none v)]
  end.

(** * Properties *)

(** ** [float] on strings *)

Example float_of_string_numbers :
  float_of_string "42" = Some (float_of_Z 42) /\
  float_of_string " -12.50e1 " = Some (float_of_Z (-125)) /\
  float_of_string "1_0.25" = Some (fdiv (float_of_Z 41) (float_of_Z 4)) /\
  float_of_string ".5" = Some (fdiv (float_of_Z 1) (float_of_Z 2)) /\
  float_of_string "7." = Some (float_of_Z 7) /\
  float_of_string "0.1" = Some (S754_finite false 7205759403792794 (-56)) /\
  float_of_string "9007199254740993" = Some (float_of_Z 9007199254740992) /\
  float_of_string "-0" = Some (S754_zero true) /\
  float_of_string "1e400" = Some (S754_infinity false).
Proof. vm_compute. repeat split. Qed.

Example float_of_string_words :
  float_of_string "not-a-number" = None /\
  float_of_string "NaN" = Some S754_nan /\
  float_of_string "-Infinity" = Some (S754_infinity true) /\
  float_of_string "" = None /\
  float_of_string "1e" = None /\
  float_of_string "." = None /\
  float_of_string "4 2" = None /\
  float_of_string "1__0" = None.
Proof. vm_compute. repeat split. Qed.

(** The digits U+0664 and U+0662 read as 42, and U+00A0 and U+0085 are
    stripped; the separator U+001C is not. *)
Example float_of_string_beyond_ascii :
  float_of_string (string_of_bytes [217; 164; 217; 162]%nat) = Some (float_of_Z 42) /\
  float_of_string (string_of_bytes [194; 160; 52; 50; 194; 133]%nat) = Some (float_of_Z 42) /\
  float_of_string (string_of_bytes [28; 52; 50]%nat) = None /\
  float_of_string (string_of_bytes [195; 169]%nat) = None.
Proof. vm_compute. repeat split. Qed.

(** An [int] is converted with one rounding, and not at all beyond the
    largest double. *)
Example py_float_of_int :
  py_float (PInt 42) = Ok (PFloat (float_of_Z 42)) /\
  py_float (PInt 9007199254740993) = Ok (PFloat (float_of_Z 9007199254740992)) /\
  py_float (PInt (2 ^ 1024 - 2 ^ 970 - 1)) = Ok (PFloat (S754_finite false 9007199254740991 971)) /\
  py_float (PInt (2 ^ 1024 - 2 ^ 970)) = Raise OverflowError /\
  py_float (PInt (10 ^ 400)) = Raise OverflowError /\
  py_float (PBool true) = Ok (PFloat (float_of_Z 1)).
Proof. vm_compute. repeat split. Qed.

(** [sum(values) / len(values)]: integers are added exactly and divided
    with one rounding; a sum of floats beyond the range is an infinity (the
    two values are [1.7e308]), an integer beyond it raises. *)
Example py_mean_examples :
  py_mean [PInt 1000; PInt 2000; PInt 3000] = Ok (PFloat (float_of_Z 2000)) /\
  py_mean [PInt 1000; PInt 1000; PInt 1001] =
    Ok (PFloat (S754_finite false 8799025053215403 (-43))) /\
  py_mean [PFloat (float_of_Z 50); PFloat (float_of_Z 100)] = Ok (PFloat (float_of_Z 75)) /\
  py_mean [PFloat (S754_finite false 8517715530038134 971);
           PFloat (S754_finite false 8517715530038134 971)] =
    Ok (PFloat (S754_infinity false)) /\
  py_mean [PInt (10 ^ 400)] = Raise OverflowError /\
  py_mean [PFloat (float_of_Z 1); PInt (10 ^ 400)] = Raise OverflowError /\
  py_mean [PInt 1200; PStr "1300"] = Raise TypeError /\
  py_mean [] = Raise ZeroDivisionError.
Proof. vm_compute. repeat split. Qed.

(** ** Dictionaries *)

Lemma dict_get_app k d1 d2 :
  dict_get k (d1 ++ d2) =
  match dict_get k d1 with
  | Some v => Some v
  | None => dict_get k d2
  end.
Proof.
  induction d1 as [|[k1 v1] d1 IH]; simpl; [reflexivity|].
  destruct (String.eqb k k1); [reflexivity | exact IH].
Qed.

Lemma dict_get_none k d : dict_get k d = None <-> ~ In k (dict_keys d).
Proof.
  induction d as [|[k1 v1] d IH]; simpl.
  - tauto.
  - destruct (String.eqb_spec k k1) as [->|Hne].
    + split; [discriminate | intros H; exfalso; apply H; now left].
    + rewrite IH. split; intros H.
      * intros [E|E]; [congruence | tauto].
      * intros E. apply H. now right.
Qed.

Lemma dict_get_set k k' v d :
  dict_get k (dict_set k' v d) = if String.eqb k k' then Some v else dict_get k d.
Proof.
  induction d as [|[k1 v1] d IH]; simpl.
  - destruct (String.eqb k k'); reflexivity.
  - destruct (String.eqb_spec k' k1) as [->|Hne]; simpl.
    + destruct (String.eqb k k1); reflexivity.
    + destruct (String.eqb_spec k k1) as [->|Hne'].
      * destruct (String.eqb_spec k1 k'); [congruence | reflexivity].
      * exact IH.
Qed.

Lemma dict_keys_set k v d :
  dict_keys (dict_set k v d) = if dict_mem k d then dict_keys d else dict_keys d ++ [k].
Proof.
  unfold dict_mem. induction d as [|[k1 v1] d IH]; simpl; [reflexivity|].
  destruct (String.eqb k k1); simpl; [reflexivity|].
  rewrite IH. destruct (dict_get k d); reflexivity.
Qed.

Lemma dict_set_wf k v d : dict_wf d -> dict_wf (dict_set k v d).
Proof.
  unfold dict_wf. intros H. rewrite dict_keys_set. unfold dict_mem.
  destruct (dict_get k d) eqn:E; [exact H|].
  apply dict_get_none in E.
  apply NoDup_rev in H. rewrite <- (rev_involutive (dict_keys d ++ [k])).
  apply NoDup_rev. rewrite rev_app_distr. simpl. constructor; [|exact H].
  rewrite <- in_rev. exact E.
Qed.

Lemma dict_update_wf d other : dict_wf d -> dict_wf (dict_update d other).
Proof.
  unfold dict_update. revert d.
  induction other as [|[k v] other IH]; simpl; intros d H; [exact H|].
  apply IH, dict_set_wf, H.
Qed.

(** in [d.update(other)] the last binding of a key in [other] wins *)
Lemma dict_get_update k d other :
  dict_get k (dict_update d other) =
  match dict_get k (rev other) with
  | Some v => Some v
  | None => dict_get k d
  end.
Proof.
  unfold dict_update. revert d.
  induction other as [|[k1 v1] other IH]; simpl; intros d; [reflexivity|].
  rewrite IH, dict_get_app, dict_get_set. simpl.
  destruct (dict_get k (rev other)); [reflexivity|].
  destruct (String.eqb k k1); reflexivity.
Qed.

Lemma dict_get_rev k d : dict_wf d -> dict_get k (rev d) = dict_get k d.
Proof.
  unfold dict_wf. induction d as [|[k1 v1] d IH]; simpl; intros H; [reflexivity|].
  inversion H as [|? ? Hnotin Hnd]; subst.
  rewrite dict_get_app. simpl.
  destruct (String.eqb_spec k k1) as [->|Hne].
  - assert (E : dict_get k1 (rev d) = None).
    { apply dict_get_none. unfold dict_keys. rewrite map_rev, <- in_rev. exact Hnotin. }
    now rewrite E.
  - rewrite (IH Hnd). now destruct (dict_get k d).
Qed.

(** the labels merged last are all there, with their own values *)
Lemma update_carries base d : dict_wf base -> carries_base base (dict_update d base).
Proof.
  intros Hwf k v Hk. now rewrite dict_get_update, (dict_get_rev k Hwf), Hk.
Qed.

Lemma update_carries_through base lbls d :
  dict_wf lbls -> carries_base base lbls -> carries_base base (dict_update d lbls).
Proof.
  intros Hwf Hc k v Hk. now rewrite dict_get_update, (dict_get_rev k Hwf), (Hc k v Hk).
Qed.

(** ** Rules for [keeps] *)

Section Keeps.

Variable P : state -> Prop.

Lemma keeps_ret A (Q : A -> Prop) a : Q a -> keeps P Q (ret a).
Proof. intros H s Hs. split; [exact Hs|]. simpl. intros b E. now inversion E; subst. Qed.

Lemma keeps_lift A (Q : A -> Prop) (o : outcome A) :
  (forall a, o = Ok a -> Q a) -> keeps P Q (lift o).
Proof. intros H s Hs. split; [exact Hs | exact H]. Qed.

Lemma keeps_bind A B (Q1 : A -> Prop) (Q : B -> Prop) (m : M A) (k : A -> M B) :
  keeps P Q1 m -> (forall a, Q1 a -> keeps P Q (k a)) -> keeps P Q (bind m k).
Proof.
  intros Hm Hk s Hs. unfold bind.
  destruct (Hm s Hs) as [Hp Hq]. destruct (m s) as [[a|e] s']; simpl in *.
  - exact (Hk a (Hq a eq_refl) s' Hp).
  - split; [exact Hp | discriminate].
Qed.

Lemma keeps_weaken A (Q1 Q : A -> Prop) (m : M A) :
  keeps P Q1 m -> (forall a, Q1 a -> Q a) -> keeps P Q m.
Proof. intros Hm HQ s Hs. destruct (Hm s Hs) as [Hp Hq]. split; auto. Qed.

Lemma keeps_anything A (Q : A -> Prop) (m : M A) : keeps P Q m -> keeps P anything m.
Proof. intros Hm. eapply keeps_weaken; [exact Hm | now intros]. Qed.

Lemma keeps_bind_any A B (Q : B -> Prop) (m : M A) (k : A -> M B) :
  keeps P anything m -> (forall a, keeps P Q (k a)) -> keeps P Q (bind m k).
Proof. intros Hm Hk. eapply keeps_bind; [exact Hm | intros a _; apply Hk]. Qed.

Lemma keeps_for_fold A B (Q : B -> Prop) (xs : list A) (body : B -> A -> M B) :
  (forall acc x, Q acc -> keeps P Q (body acc x)) ->
  forall acc, Q acc -> keeps P Q (for_fold xs acc body).
Proof.
  intros Hbody. induction xs as [|x xs IH]; simpl; intros acc Hacc.
  - now apply keeps_ret.
  - eapply keeps_bind; [apply Hbody, Hacc | exact IH].
Qed.

Lemma keeps_for_each A (xs : list A) (body : A -> M unit) :
  (forall x, keeps P anything (body x)) -> keeps P anything (for_each xs body).
Proof.
  intros Hbody. induction xs as [|x xs IH]; simpl.
  - now apply keeps_ret.
  - eapply keeps_bind; [apply Hbody | intros; exact IH].
Qed.

End Keeps.

(** one step through the structure of a collector function *)
Ltac keeps_step :=
  lazymatch goal with
  | |- keeps _ _ (bind _ _) => apply keeps_bind_any; [| intros ?]
  | |- keeps _ _ (ret _) => apply keeps_ret; exact I
  | |- keeps _ _ (lift _) => apply keeps_lift; intros; exact I
  | |- keeps _ _ (for_each _ _) => apply keeps_for_each; intros ?
  | |- keeps _ _ (for_fold _ _ _) =>
      apply keeps_for_fold with (Q := anything); [intros ? ? _ | exact I]
  | |- keeps _ _ (if ?b then _ else _) => destruct b
  | |- keeps _ _ (match ?x with _ => _ end) => destruct x
  end.

(** ** Invariants of the reconciliation passes

    A property of the state that the log, the fetches and the samples
    with [good] labels keep is kept by every pass, whatever the target
    answers and whether or not the pass raises. *)

Section Invariant.

Variable col : RedfishMetricsCollector.
Variable P : state -> Prop.
Variable good : dict -> Prop.

Hypothesis good_base : forall d, good (dict_update d (labels col)).
Hypothesis good_through :
  forall d lbls, dict_wf lbls -> good lbls -> good (dict_update d lbls).
Hypothesis P_log : forall l fmt args, keeps P anything (logging l fmt args).
Hypothesis P_connect : forall url, keeps P anything (connect col url).
Hypothesis P_power :
  forall name v lbls, good lbls -> keeps P anything (add_power_sample name v lbls).
Hypothesis P_temperature :
  forall name v lbls, good lbls -> keeps P anything (add_temperature_sample name v lbls).
Hypothesis P_fan_speed :
  forall name v lbls, good lbls -> keeps P anything (add_fan_speed_sample name v lbls).
Hypothesis P_fan_pwm :
  forall name v lbls, good lbls -> keeps P anything (add_fan_pwm_sample name v lbls).

Lemma power_supply_fields_keeps data : keeps P dict_wf (power_supply_fields data).
Proof.
  unfold power_supply_fields. apply keeps_for_fold; [|constructor].
  intros acc x Hacc. apply keeps_bind_any; [apply keeps_lift; intros; exact I|].
  intros v. apply keeps_ret. now apply dict_update_wf.
Qed.

Ltac keeps_auto :=
  repeat first
    [ apply P_log | apply P_connect
    | apply P_power; auto | apply P_temperature; auto
    | apply P_fan_speed; auto | apply P_fan_pwm; auto
    | eapply keeps_bind; [apply power_supply_fields_keeps | intros ? ?]
    | keeps_step ].

Lemma power_supply_reading_keeps lbls pm metric :
  dict_wf lbls -> good lbls -> keeps P anything (power_supply_reading lbls pm metric).
Proof. intros Hwf Hg. unfold power_supply_reading. keeps_auto. Qed.

Lemma get_power_supply_metrics_keeps power_supply :
  keeps P anything (get_power_supply_metrics col power_supply).
Proof.
  unfold get_power_supply_metrics. keeps_auto.
  apply power_supply_reading_keeps; [now apply dict_update_wf | apply good_base].
Qed.

Lemma power_subsystem_field_keeps ps metric :
  keeps P anything (power_subsystem_field col ps metric).
Proof. unfold power_subsystem_field. keeps_auto. Qed.

Lemma get_power_subsystem_metrics_keeps :
  keeps P anything (get_power_subsystem_metrics col).
Proof.
  unfold get_power_subsystem_metrics.
  keeps_auto;
    first [ apply power_subsystem_field_keeps | apply get_power_supply_metrics_keeps ].
Qed.

Lemma get_old_power_metrics_keeps : keeps P anything (get_old_power_metrics col).
Proof. unfold get_old_power_metrics. keeps_auto. Qed.

Lemma get_power_metrics_keeps : keeps P anything (get_power_metrics col).
Proof.
  unfold get_power_metrics.
  keeps_auto;
    first [ apply get_old_power_metrics_keeps | apply get_power_subsystem_metrics_keeps ].
Qed.

Lemma get_temp_metrics_keeps : keeps P anything (get_temp_metrics col).
Proof. unfold get_temp_metrics. keeps_auto. Qed.

Lemma append_fan_keeps values fan : keeps P anything (append_fan values fan).
Proof. unfold append_fan. keeps_auto. Qed.

Lemma fan_subsystem_pass_keeps values : keeps P anything (fan_subsystem_pass col values).
Proof. unfold fan_subsystem_pass. keeps_auto; apply append_fan_keeps. Qed.

Lemma fan_thermal_pass_keeps values : keeps P anything (fan_thermal_pass col values).
Proof. unfold fan_thermal_pass. keeps_auto; apply append_fan_keeps. Qed.

Lemma fan_averages_keeps values : keeps P anything (fan_averages col values).
Proof. unfold fan_averages. keeps_auto. Qed.

Lemma get_fan_metrics_keeps : keeps P anything (get_fan_metrics col).
Proof.
  unfold get_fan_metrics.
  keeps_auto;
    first [ apply fan_averages_keeps
          | apply fan_subsystem_pass_keeps
          | apply fan_thermal_pass_keeps ].
Qed.

Lemma collect_keeps : keeps P anything (collect col).
Proof.
  unfold collect.
  keeps_auto;
    first [ apply get_power_metrics_keeps
          | apply get_temp_metrics_keeps
          | apply get_fan_metrics_keeps ].
Qed.

End Invariant.

(** ** Every sample carries the base labels *)

Section Labelled.

Variable col : RedfishMetricsCollector.
Hypothesis base_wf : dict_wf (labels col).

Lemma labelled_log l fmt args :
  keeps (labelled (labels col)) anything (logging l fmt args).
Proof. intros s Hs. split; [exact Hs | intros; exact I]. Qed.

Lemma labelled_connect url :
  keeps (labelled (labels col)) anything (connect col url).
Proof. intros s Hs. split; [exact Hs | intros; exact I]. Qed.

Ltac labelled_add :=
  intros Hg s Hs; split; [| intros; exact I];
  unfold labelled, all_samples in *; simpl;
  repeat rewrite Forall_app in *; repeat split; try tauto;
  repeat constructor; exact Hg.

Lemma labelled_power name v lbls :
  carries_base (labels col) lbls ->
  keeps (labelled (labels col)) anything (add_power_sample name v lbls).
Proof. labelled_add. Qed.

Lemma labelled_temperature name v lbls :
  carries_base (labels col) lbls ->
  keeps (labelled (labels col)) anything (add_temperature_sample name v lbls).
Proof. labelled_add. Qed.

Lemma labelled_fan_speed name v lbls :
  carries_base (labels col) lbls ->
  keeps (labelled (labels col)) anything (add_fan_speed_sample name v lbls).
Proof. labelled_add. Qed.

Lemma labelled_fan_pwm name v lbls :
  carries_base (labels col) lbls ->
  keeps (labelled (labels col)) anything (add_fan_pwm_sample name v lbls).
Proof. labelled_add. Qed.

End Labelled.

(** the four passes keep [labelled] *)
Lemma labelled_kept col (m : M unit) :
  dict_wf (labels col) ->
  (forall (P : state -> Prop) (good : dict -> Prop),
      (forall d, good (dict_update d (labels col))) ->
      (forall d lbls, dict_wf lbls -> good lbls -> good (dict_update d lbls)) ->
      (forall l fmt args, keeps P anything (logging l fmt args)) ->
      (forall url, keeps P anything (connect col url)) ->
      (forall name v lbls, good lbls -> keeps P anything (add_power_sample name v lbls)) ->
      (forall name v lbls, good lbls -> keeps P anything (add_temperature_sample name v lbls)) ->
      (forall name v lbls, good lbls -> keeps P anything (add_fan_speed_sample name v lbls)) ->
      (forall name v lbls, good lbls -> keeps P anything (add_fan_pwm_sample name v lbls)) ->
      keeps P anything m) ->
  forall s, labelled (labels col) s -> labelled (labels col) (snd (m s)).
Proof.
  intros Hwf Hm s Hs.
  apply (Hm (labelled (labels col)) (carries_base (labels col))); auto.
  - intros d. now apply update_carries.
  - intros d lbls. apply update_carries_through.
  - apply labelled_log.
  - apply labelled_connect.
  - apply labelled_power.
  - apply labelled_temperature.
  - apply labelled_fan_speed.
  - apply labelled_fan_pwm.
Qed.

(** C10: every sample that any reconciliation pass emits carries the
    complete base label set with the base values, so a per-sample label
    whose key collides with a base label is overridden by the base value:
    the base labels are merged into the label mapping after the
    per-sample labels are set. *)
Theorem samples_carry_base_labels col s :
  dict_wf (labels col) ->
  labelled (labels col) s ->
  labelled (labels col) (snd (get_power_metrics col s)) /\
  labelled (labels col) (snd (get_temp_metrics col s)) /\
  labelled (labels col) (snd (get_fan_metrics col s)) /\
  labelled (labels col) (snd (collect col s)) /\
  (forall per_sample k v,
      dict_get k (labels col) = Some v ->
      dict_get k (dict_update per_sample (labels col)) = Some v).
Proof.
  intros Hwf Hs. repeat split.
  - apply labelled_kept; auto. intros. apply get_power_metrics_keeps with (good := good); auto.
  - apply labelled_kept; auto. intros. apply get_temp_metrics_keeps with (good := good); auto.
  - apply labelled_kept; auto. intros. apply get_fan_metrics_keeps with (good := good); auto.
  - apply labelled_kept; auto. intros. apply collect_keeps with (good := good); auto.
  - intros d. now apply update_carries.
Qed.

Lemma base_labels_wf : dict_wf base_labels.
Proof. repeat constructor; simpl; intuition discriminate. Qed.

Lemma samples_carry_base_labels_witness :
  dict_wf (labels both_fan_schemas) /\
  labelled (labels both_fan_schemas) initial_state /\
  labelled (labels both_fan_schemas) (snd (collect both_fan_schemas initial_state)).
Proof.
  split; [exact base_labels_wf|]. split; [constructor|].
  destruct (@samples_carry_base_labels both_fan_schemas initial_state base_labels_wf
              (Forall_nil _)) as (_ & _ & _ & H & _).
  exact H.
Defined.

(** ** Each family writes its own gauges *)

(** closes the side conditions of an invariant that a step does not touch *)
Ltac untouched :=
  intros;
  first [ exact I
        | let s := fresh "s" in
          let H := fresh "H" in
          intros s H; split; [exact H | intros; exact I] ].

Lemma power_frame col s :
  let s' := snd (get_power_metrics col s) in
  temperature_metrics s' = temperature_metrics s /\
  fan_speed_metrics s' = fan_speed_metrics s /\
  fan_pwm_metrics s' = fan_pwm_metrics s.
Proof.
  pose (P := fun s' =>
    temperature_metrics s' = temperature_metrics s /\
    fan_speed_metrics s' = fan_speed_metrics s /\
    fan_pwm_metrics s' = fan_pwm_metrics s).
  assert (K : keeps P anything (get_power_metrics col))
    by (apply get_power_metrics_keeps with (good := fun _ => True); untouched).
  exact (proj1 (K s (conj eq_refl (conj eq_refl eq_refl)))).
Qed.

Lemma thermal_frame col s :
  let s' := snd (get_temp_metrics col s) in
  power_metrics s' = power_metrics s /\
  fan_speed_metrics s' = fan_speed_metrics s /\
  fan_pwm_metrics s' = fan_pwm_metrics s.
Proof.
  pose (P := fun s' =>
    power_metrics s' = power_metrics s /\
    fan_speed_metrics s' = fan_speed_metrics s /\
    fan_pwm_metrics s' = fan_pwm_metrics s).
  assert (K : keeps P anything (get_temp_metrics col))
    by (apply get_temp_metrics_keeps with (good := fun _ => True); untouched).
  exact (proj1 (K s (conj eq_refl (conj eq_refl eq_refl)))).
Qed.

Lemma fan_frame col s :
  let s' := snd (get_fan_metrics col s) in
  power_metrics s' = power_metrics s /\
  temperature_metrics s' = temperature_metrics s.
Proof.
  pose (P := fun s' =>
    power_metrics s' = power_metrics s /\
    temperature_metrics s' = temperature_metrics s).
  assert (K : keeps P anything (get_fan_metrics col))
    by (apply get_fan_metrics_keeps with (good := fun _ => True); untouched).
  exact (proj1 (K s (conj eq_refl eq_refl))).
Qed.

(** the fan passes fetch and do nothing else *)
Lemma fan_passes_fetch_only col (m : M (list pyval * list pyval)) s :
  (forall P : state -> Prop,
      (forall url, keeps P anything (connect col url)) -> keeps P anything m) ->
  let s' := snd (m s) in
  power_metrics s' = power_metrics s /\
  temperature_metrics s' = temperature_metrics s /\
  fan_speed_metrics s' = fan_speed_metrics s /\
  fan_pwm_metrics s' = fan_pwm_metrics s /\
  log s' = log s.
Proof.
  intros Hm.
  pose (P := fun s' =>
    power_metrics s' = power_metrics s /\
    temperature_metrics s' = temperature_metrics s /\
    fan_speed_metrics s' = fan_speed_metrics s /\
    fan_pwm_metrics s' = fan_pwm_metrics s /\
    log s' = log s).
  assert (K : keeps P anything m) by (apply Hm; untouched).
  exact (proj1 (K s (conj eq_refl (conj eq_refl (conj eq_refl (conj eq_refl eq_refl)))))).
Qed.

Lemma fan_subsystem_pass_fetch_only col values s :
  let s' := snd (fan_subsystem_pass col values s) in
  power_metrics s' = power_metrics s /\
  temperature_metrics s' = temperature_metrics s /\
  fan_speed_metrics s' = fan_speed_metrics s /\
  fan_pwm_metrics s' = fan_pwm_metrics s /\
  log s' = log s.
Proof.
  apply (@fan_passes_fetch_only col). intros P HP. now apply fan_subsystem_pass_keeps.
Qed.

Lemma fan_thermal_pass_fetch_only col values s :
  let s' := snd (fan_thermal_pass col values s) in
  power_metrics s' = power_metrics s /\
  temperature_metrics s' = temperature_metrics s /\
  fan_speed_metrics s' = fan_speed_metrics s /\
  fan_pwm_metrics s' = fan_pwm_metrics s /\
  log s' = log s.
Proof.
  apply (@fan_passes_fetch_only col). intros P HP. now apply fan_thermal_pass_keeps.
Qed.

(** ** The cycle driver *)

Lemma bind_run A B (m : M A) (k : A -> M B) s :
  bind m k s =
  match fst (m s) with
  | Ok a => k a (snd (m s))
  | Raise e => (Raise e, snd (m s))
  end.
Proof. unfold bind. now destruct (m s) as [[a|e] s']. Qed.

Lemma bind_logging B l fmt args (k : unit -> M B) s :
  bind (logging l fmt args) k s = k tt (snd (logging l fmt args s)).
Proof. reflexivity. Qed.

(** C2, as the code has it: the driver runs power reconciliation, then
    thermal, then fan, in that order, each on the state its predecessor
    left, and a family writes no gauge of another family. The driver
    handles no exception: the first family that raises ends the cycle,
    its exception is the outcome of [collect], and the families after it
    do not run. *)
Theorem collect_runs_families_in_order col s :
  let s0 :=
    snd (logging INFO "Target %s: Collecting performance data ..." [PStr (target col)] s) in
  let power := get_power_metrics col s0 in
  let thermal := get_temp_metrics col (snd power) in
  let fan := get_fan_metrics col (snd thermal) in
  collect col s =
    match fst power with
    | Raise e => (Raise e, snd power)
    | Ok _ =>
        match fst thermal with
        | Raise e => (Raise e, snd thermal)
        | Ok _ => fan
        end
    end /\
  (temperature_metrics (snd power) = temperature_metrics s /\
   fan_speed_metrics (snd power) = fan_speed_metrics s /\
   fan_pwm_metrics (snd power) = fan_pwm_metrics s) /\
  (power_metrics (snd thermal) = power_metrics (snd power) /\
   fan_speed_metrics (snd thermal) = fan_speed_metrics s /\
   fan_pwm_metrics (snd thermal) = fan_pwm_metrics s) /\
  (power_metrics (snd fan) = power_metrics (snd power) /\
   temperature_metrics (snd fan) = temperature_metrics (snd thermal)).
Proof.
  intros s0 power thermal fan. split.
  - unfold collect. rewrite bind_logging, bind_run. fold s0. fold power.
    destruct (fst power) as [[]|e]; [|reflexivity].
    rewrite bind_run. fold thermal.
    destruct (fst thermal) as [[]|e]; reflexivity.
  - destruct (power_frame col s0) as (Hp1 & Hp2 & Hp3).
    destruct (thermal_frame col (snd power)) as (Ht1 & Ht2 & Ht3).
    destruct (fan_frame col (snd thermal)) as (Hf1 & Hf2).
    assert (E0 : temperature_metrics s0 = temperature_metrics s /\
                 fan_speed_metrics s0 = fan_speed_metrics s /\
                 fan_pwm_metrics s0 = fan_pwm_metrics s) by (repeat split).
    destruct E0 as (E01 & E02 & E03).
    subst fan thermal power. repeat split; congruence.
Qed.

(** C2 fails as stated: on a target whose [ThermalSubsystem] resource has
    no [ThermalMetrics] pointer the thermal pass raises [KeyError], the
    exception is the outcome of the cycle, and the fan pass, which on the
    same target emits a sample, has not run. *)
Lemma collect_stops_at_key_error :
  fst (collect no_thermal_metrics initial_state) = Raise KeyError /\
  fan_speed_metrics (snd (collect no_thermal_metrics initial_state)) = [] /\
  warnings_of no_pwm_data (log (snd (collect no_thermal_metrics initial_state))) = [] /\
  List.length (fan_speed_metrics (snd (get_fan_metrics no_thermal_metrics initial_state))) = 1%nat.
Proof. vm_compute. repeat split. Qed.

(** ** Power reconciliation at the targets with both schemas *)

(** C1, the code at a target where both schemas yield power-supply
    samples: the first supply of the [PowerSubsystem] has readings and the
    last one has no [Metrics] link, so the flag, which each supply
    overwrites, comes back [True]; the deprecated [Power] resource is
    fetched and its samples follow the modern ones in the power gauge. *)
Theorem deprecated_power_merged_with_modern :
  let modern := power_metrics (snd (get_power_metrics modern_power_only initial_state)) in
  let deprecated :=
    power_metrics (snd (get_power_metrics deprecated_power_only initial_state)) in
  let both := snd (get_power_metrics both_power_schemas initial_state) in
  map (fun smp => (dict_get "type" (sample_labels smp), dict_get "Name" (sample_labels smp)))
    modern =
    [(Some (PStr "CapacityWatts"), None);
     (Some (PStr "PowerInputWatts"), Some (PStr "PSU1"))] /\
  map (fun smp => dict_get "type" (sample_labels smp)) deprecated =
    [Some (PStr "PowerOutputWatts")] /\
  power_metrics both = modern ++ deprecated /\
  requests both =
    requests (snd (get_power_metrics modern_power_only initial_state)) ++ [PStr "/power"].
Proof. vm_compute. repeat split. Qed.

(** C3, the code at a target that advertises the deprecated [Power]
    schema only: the fallback pass emits a power-supply sample, its flag
    is dropped by [get_power_metrics], and the warning is logged all the
    same. *)
Theorem warning_despite_deprecated_samples :
  let run := get_power_metrics deprecated_power_only initial_state in
  fst run = Ok tt /\
  map (fun smp => (dict_get "type" (sample_labels smp), sample_value smp))
    (power_metrics (snd run)) = [(Some (PStr "PowerOutputWatts"), PInt 90)] /\
  fst (get_old_power_metrics deprecated_power_only initial_state) = Ok false /\
  warnings_of no_power_url (log (snd run)) =
    [mkLog WARNING no_power_url (identity deprecated_power_only)].
Proof. vm_compute. repeat split. Qed.

(** ** Fan averages *)

Lemma py_mean_is_float values m : py_mean values = Ok m -> exists f, m = PFloat f.
Proof.
  unfold py_mean. destruct (py_sum values) as [total|e]; [|discriminate].
  cbn [obind]. destruct (num_div total _) as [f|e]; [|discriminate].
  cbn [obind]. intros E. injection E as <-. eauto.
Qed.





(** a sum of floats stays a float, and nothing in it raises *)
Lemma py_sum_from_floats vs :
  Forall (fun v => is_float v = true) vs ->
  forall f, exists g, py_sum_from (NFloat f) vs = Ok (NFloat g).
Proof.
  induction 1 as [|v vs Hv _ IH]; intros f; cbn [py_sum_from]; [eauto|].
  destruct v; try discriminate. cbn [num_add obind]. apply IH.
Qed.

Lemma py_mean_floats v vs :
  Forall (fun v => is_float v = true) (v :: vs) ->
  exists f, py_mean (v :: vs) = Ok (PFloat f).
Proof.
  intros H. inversion H as [|? ? Hv Hvs]; subst.
  destruct v as [| | |g| | |]; try discriminate.
  unfold py_mean, py_sum. cbn [py_sum_from num_add].
  change (int_to_float 0) with (Ok (S754_zero false)). cbn [obind].
  destruct (py_sum_from_floats Hvs (fadd (S754_zero false) g)) as [t ->].
  cbn [obind List.length]. unfold num_div.
  destruct (Z.of_nat (S (List.length vs))) eqn:E; try lia.
  cbn [obind]. eauto.
Qed.

Lemma average_of_floats values :
  Forall (fun v => is_float v = true) values ->
  exists a, average_of values = Ok a.
Proof.
  intros H. destruct values as [|v vs]; [now exists None|].
  destruct (py_mean_floats H) as [f Hf]. unfold average_of. rewrite Hf. simpl. eauto.
Qed.



(** what [fan_averages] does when both averages return: a non-empty list
    gives one sample, the mean, and no warning; the empty list gives no
    sample and one warning *)
Lemma fan_averages_return col rpm_values pwm_values s a b :
  average_of rpm_values = Ok a ->
  average_of pwm_values = Ok b ->
  let average := dict_update [("type", PStr "average")] (labels col) in
  exists s' r p w,
    fan_averages col (rpm_values, pwm_values) s = (Ok tt, s') /\
    fan_speed_metrics s' = fan_speed_metrics s ++ r /\
    fan_pwm_metrics s' = fan_pwm_metrics s ++ p /\
    log s' = log s ++ w /\
    match rpm_values with
    | [] => r = [] /\ warnings_of no_rpm_data w = [mkLog WARNING no_rpm_data (identity col)]
    | _ :: _ =>
        exists mean,
          py_mean rpm_values = Ok (PFloat mean) /\
          r = [mkSample "redfish_fan_speed_rpm" average (PFloat mean)] /\
          warnings_of no_rpm_data w = []
    end /\
    match pwm_values with
    | [] => p = [] /\ warnings_of no_pwm_data w = [mkLog WARNING no_pwm_data (identity col)]
    | _ :: _ =>
        exists mean,
          py_mean pwm_values = Ok (PFloat mean) /\
          p = [mkSample "redfish_fan_speed_pwm_percent" average (PFloat mean)] /\
          warnings_of no_pwm_data w = []
    end.
Proof.
  intros Hr Hp average. unfold fan_averages, bind, lift. unfold average_of in Hr, Hp.
  destruct rpm_values as [|v rv]; cbn [truthy];
    [| destruct (py_mean (v :: rv)) as [m|e] eqn:Hm; [|discriminate];
       destruct (py_mean_is_float _ Hm) as [f ->] ];
    (destruct pwm_values as [|u pv]; cbn [truthy];
     [| destruct (py_mean (u :: pv)) as [m'|e'] eqn:Hm'; [|discriminate];
        destruct (py_mean_is_float _ Hm') as [f' ->] ]);
    cbn [logging add_fan_speed_sample add_fan_pwm_sample];
    eexists; eexists; eexists; eexists;
    (split; [reflexivity|]); cbn [fan_speed_metrics fan_pwm_metrics log];
    (split; [first [reflexivity | symmetry; apply app_nil_r] |]);
    (split; [first [reflexivity | symmetry; apply app_nil_r] |]);
    (split; [first [reflexivity | symmetry; apply app_nil_r
                   | rewrite <- app_assoc; reflexivity] |]);
    split; first [ split; reflexivity | eexists; repeat split; reflexivity ].
Qed.

(** an RPM average that raises ends the pass before anything is emitted or
    logged *)
Lemma fan_averages_rpm_raises col rpm_values pwm_values s e :
  average_of rpm_values = Raise e ->
  fan_averages col (rpm_values, pwm_values) s = (Raise e, s).
Proof.
  unfold average_of, fan_averages, bind, lift.
  destruct rpm_values as [|v rv]; [discriminate|]. cbn [truthy].
  destruct (py_mean (v :: rv)); [discriminate|]. now intros [= ->].
Qed.


(** ** The fallback to the deprecated [Thermal] resource *)

Lemma bind_lift A B (o : outcome A) (k : A -> M B) s :
  bind (lift o) k s =
  match o with
  | Ok a => k a s
  | Raise e => (Raise e, s)
  end.
Proof. unfold bind, lift. now destruct o. Qed.

(** the extraction of one fan touches no state *)
Lemma append_fan_run rpm_values pwm_values fan s :
  append_fan (rpm_values, pwm_values) fan s =
  (match _rpm_from_fan fan, _pwm_from_fan fan with
   | Ok rpm, Ok pwm => Ok (rpm_values ++ present [rpm], pwm_values ++ present [pwm])
   | Ok _, Raise e => Raise e
   | Raise e, _ => Raise e
   end, s).
Proof.
  unfold append_fan. rewrite bind_lift.
  destruct (_rpm_from_fan fan) as [rpm|e]; [|reflexivity].
  rewrite bind_lift.
  destruct (_pwm_from_fan fan) as [pwm|e]; [|reflexivity].
  unfold ret, present. simpl.
  destruct (is_none rpm), (is_none pwm); simpl; rewrite ?app_nil_r; reflexivity.
Qed.

Lemma for_fold_append_fan_state fans :
  forall values s, snd (for_fold fans values append_fan s) = s.
Proof.
  induction fans as [|fan fans IH]; intros [rv pv] s; cbn [for_fold]; [reflexivity|].
  rewrite bind_run, append_fan_run. cbn [fst snd].
  destruct (_rpm_from_fan fan); [|reflexivity].
  destruct (_pwm_from_fan fan); [|reflexivity].
  apply IH.
Qed.

(** the lists only grow: what was collected before stays in front *)
Lemma for_fold_append_fan_extends fans :
  forall rv pv s rv' pv' s',
    for_fold fans (rv, pv) append_fan s = (Ok (rv', pv'), s') ->
    exists more_rpm more_pwm, rv' = rv ++ more_rpm /\ pv' = pv ++ more_pwm.
Proof.
  induction fans as [|fan fans IH]; intros rv pv s rv' pv' s'; cbn [for_fold].
  - unfold ret. intros E. injection E as <- <- _. exists [], []. now rewrite !app_nil_r.
  - rewrite bind_run, append_fan_run. cbn [fst snd].
    destruct (_rpm_from_fan fan) as [rpm|e]; [|discriminate].
    destruct (_pwm_from_fan fan) as [pwm|e]; [|discriminate].
    intros E. apply IH in E. destruct E as (mr & mp & -> & ->).
    exists (present [rpm] ++ mr), (present [pwm] ++ mp). now rewrite !app_assoc.
Qed.

(** when every extraction returns, the values found are appended in the
    order of the fans *)
Lemma for_fold_append_fan_all fans :
  forall rv pv s rpms pwms,
    Forall2 (fun fan rpm => _rpm_from_fan fan = Ok rpm) fans rpms ->
    Forall2 (fun fan pwm => _pwm_from_fan fan = Ok pwm) fans pwms ->
    for_fold fans (rv, pv) append_fan s = (Ok (rv ++ present rpms, pv ++ present pwms), s).
Proof.
  induction fans as [|fan fans IH]; intros rv pv s rpms pwms Hr Hp;
    inversion Hr as [|? rpm ? rpms' Hrpm Hr']; inversion Hp as [|? pwm ? pwms' Hpwm Hp'];
    subst; cbn [for_fold].
  - unfold ret, present. simpl. now rewrite !app_nil_r.
  - rewrite bind_run, append_fan_run, Hrpm, Hpwm. cbn [fst snd].
    rewrite (IH _ _ s rpms' pwms' Hr' Hp'). unfold present. simpl.
    destruct (is_none rpm), (is_none pwm); simpl; rewrite <- ?app_assoc, ?app_nil_r;
      reflexivity.
Qed.

Lemma fan_averages_requests col values s :
  requests (snd (fan_averages col values s)) = requests s.
Proof.
  pose (P := fun s' => requests s' = requests s).
  assert (K : keeps P anything (fan_averages col values))
    by (apply fan_averages_keeps with (good := fun _ => True); untouched).
  exact (proj1 (K s eq_refl)).
Qed.

Lemma fan_thermal_pass_requests col rpm_values pwm_values s :
  requests (snd (fan_thermal_pass col (rpm_values, pwm_values) s)) =
  requests s ++
  (if match rpm_values with [] => truthy (urls col "Thermal") | _ :: _ => false end
   then [urls col "Thermal"] else []).
Proof.
  unfold fan_thermal_pass. cbn [fst truthy].
  destruct rpm_values as [|v rv]; cbn [negb andb];
    [destruct (truthy (urls col "Thermal")) |]; try (symmetry; apply app_nil_r).
  rewrite bind_run. unfold connect at 1 2 3. cbn [fst snd].
  destruct (connect_server col (urls col "Thermal")) as [thermal|e]; [|reflexivity].
  rewrite bind_lift. destruct (py_get thermal "Fans" (PList [])) as [listed|e]; [|reflexivity].
  rewrite bind_lift. destruct (py_iter listed) as [fans|e]; [|reflexivity].
  now rewrite for_fold_append_fan_state.
Qed.

(** C5: the deprecated [Thermal] locator is consulted for fan data exactly
    when the RPM list is empty after the [ThermalSubsystem] pass and the
    [Thermal] locator is present, whatever the PWM list holds; when it is
    consulted, the RPM and the PWM extraction both run over the inline
    [Fans] array of the deprecated resource. *)
Theorem thermal_fallback_rule col rpm_values pwm_values s :
  let run := fan_thermal_pass col (rpm_values, pwm_values) s in
  let due :=
    match rpm_values with
    | [] => truthy (urls col "Thermal")
    | _ :: _ => false
    end in
  requests (snd run) = requests s ++ (if due then [urls col "Thermal"] else []) /\
  (due = false -> run = (Ok (rpm_values, pwm_values), s)) /\
  (forall thermal listed fans rpms pwms,
      due = true ->
      connect_server col (urls col "Thermal") = Ok thermal ->
      py_get thermal "Fans" (PList []) = Ok listed ->
      py_iter listed = Ok fans ->
      Forall2 (fun fan rpm => _rpm_from_fan fan = Ok rpm) fans rpms ->
      Forall2 (fun fan pwm => _pwm_from_fan fan = Ok pwm) fans pwms ->
      fst run = Ok (present rpms, pwm_values ++ present pwms)) /\
  (forall rv pv s1,
      fan_subsystem_pass col ([], [])
        (snd (logging INFO "Target %s: Gathering fan data …" [PStr (target col)] s)) =
        (Ok (rv, pv), s1) ->
      requests (snd (get_fan_metrics col s)) =
      requests s1 ++
      (if match rv with [] => truthy (urls col "Thermal") | _ :: _ => false end
       then [urls col "Thermal"] else [])).
Proof.
  intros run due. split; [apply fan_thermal_pass_requests|]. split; [|split].
  - subst run due. unfold fan_thermal_pass. cbn [fst truthy].
    destruct rpm_values as [|v rv]; cbn [negb andb]; [|reflexivity].
    now intros ->.
  - intros thermal listed fans rpms pwms Hdue Hthermal Hlisted Hfans Hrpms Hpwms.
    subst run due. unfold fan_thermal_pass. cbn [fst truthy].
    destruct rpm_values as [|v rv]; [|discriminate]. cbn [negb andb]. rewrite Hdue.
    rewrite bind_run. unfold connect at 1 2. cbn [fst snd]. rewrite Hthermal.
    rewrite bind_lift, Hlisted, bind_lift, Hfans.
    now rewrite (for_fold_append_fan_all [] pwm_values _ Hrpms Hpwms).
  - intros rv pv s1 Hpass. unfold get_fan_metrics.
    rewrite bind_logging, bind_run, Hpass. cbn [fst snd]. rewrite bind_run.
    rewrite <- (fan_thermal_pass_requests col rv pv s1).
    destruct (fst (fan_thermal_pass col (rv, pv) s1)); [|reflexivity].
    apply fan_averages_requests.
Qed.

Lemma thermal_fallback_rule_witness :
  fst (fan_thermal_pass both_fan_schemas ([], [PFloat (float_of_Z 50)]) initial_state) =
  Ok ([PInt 1000], [PFloat (float_of_Z 50); PFloat (float_of_Z 100)]).
Proof.
  destruct (thermal_fallback_rule both_fan_schemas [] [PFloat (float_of_Z 50)] initial_state)
    as (_ & _ & H & _).
  apply (H (PDict [("Fans",
                    PList [PDict [("ReadingRPM", PInt 1000); ("DutyCyclePercent", PInt 100)]])])
           (PList [PDict [("ReadingRPM", PInt 1000); ("DutyCyclePercent", PInt 100)]])
           [PDict [("ReadingRPM", PInt 1000); ("DutyCyclePercent", PInt 100)]]
           [PInt 1000] [PFloat (float_of_Z 100)]);
    try reflexivity; repeat constructor.
Defined.

(** ** Per-fan PWM extraction *)

Lemma non_null_some v : non_null (Some v) = if is_none v then None else Some v.
Proof. now destruct v. Qed.

(** the [try] of [_pwm_from_fan] absorbs [ValueError] and [TypeError],
    and nothing else *)
Lemma float_or_none_coerced v :
  float_or_none v = if is_none v then Ok PNone else coerced v.
Proof.
  unfold float_or_none, coerced. destruct (is_none v); [reflexivity|].
  destruct (py_float v) as [|[]]; reflexivity.
Qed.

Lemma int_to_float_cases z :
  (exists f, int_to_float z = Ok f) \/ int_to_float z = Raise OverflowError.
Proof. unfold int_to_float. destruct (float_of_Z z); eauto. Qed.

(** [float] gives a float, or raises [ValueError] on a string,
    [TypeError] on what is no number and no string, [OverflowError] on an
    integer beyond the range *)
Lemma py_float_cases v :
  (exists f, py_float v = Ok (PFloat f)) \/
  py_float v = Raise ValueError \/
  py_float v = Raise TypeError \/
  (exists z, v = PInt z /\ int_to_float z = Raise OverflowError /\
             py_float v = Raise OverflowError).
Proof.
  destruct v as [| b | z | f | str | l | d]; cbn [py_float]; eauto.
  - left. destruct b; vm_compute; eauto.
  - destruct (int_to_float_cases z) as [[f Hf]|Hz]; rewrite ?Hf, ?Hz; cbn [obind]; eauto 8.
  - destruct (float_of_string str); eauto.
Qed.

Lemma coerced_cases v :
  coerced v = Ok PNone \/
  (exists f, coerced v = Ok (PFloat f)) \/
  (exists z, v = PInt z /\ int_to_float z = Raise OverflowError /\
             coerced v = Raise OverflowError).
Proof.
  unfold coerced.
  destruct (py_float_cases v) as [[f ->] | [-> | [-> | (z & -> & Hz & ->)]]]; eauto 8.
Qed.

Lemma coerced_ok v w : coerced v = Ok w -> w = PNone \/ exists f, w = PFloat f.
Proof.
  destruct (coerced_cases v) as [-> | [[f ->] | (z & _ & _ & ->)]];
    intros E; [injection E as <-; now left | injection E as <-; eauto | discriminate].
Qed.

Lemma option_cases (o : option pyval) :
  o = None \/ o = Some PNone \/ exists v, o = Some v /\ is_none v = false.
Proof. destruct o as [[]|]; eauto 6. Qed.



Ltac cases_of t :=
  let v := fresh "v" in
  let N := fresh "N" in
  destruct (option_cases t) as [-> | [-> | (v & -> & N)]].

Ltac tidy :=
  repeat first
    [ rewrite non_null_some
    | progress change (is_none PNone) with true
    | match goal with N : is_none ?v = false |- _ => rewrite N end
    | progress cbn [obind negb first_present app fold_left non_null] ].





(** ** The fan samples of a cycle *)

(** a PWM value, when there is one, is a float *)
Lemma _pwm_from_fan_float fan v :
  _pwm_from_fan fan = Ok v -> v = PNone \/ exists f, v = PFloat f.
Proof.
  unfold _pwm_from_fan.
  destruct (negb (truthy fan)); [intros E; injection E as <-; now left|].
  destruct (pwm_value fan) as [value|e]; cbn [obind]; [|discriminate].
  rewrite float_or_none_coerced.
  destruct (is_none value); [intros E; injection E as <-; now left | apply coerced_ok].
Qed.

Lemma append_fan_floats values fan :
  Forall (fun v => is_float v = true) (snd values) ->
  keeps (fun _ => True) (fun values' => Forall (fun v => is_float v = true) (snd values'))
    (append_fan values fan).
Proof.
  destruct values as [rv pv]. intros Hpv s _. split; [exact I|].
  rewrite append_fan_run. cbn [fst snd].
  destruct (_rpm_from_fan fan) as [rpm|e]; [|discriminate].
  destruct (_pwm_from_fan fan) as [pwm|e] eqn:Epwm; [|discriminate].
  intros values' E. injection E as <-. cbn [snd].
  apply Forall_app. split; [exact Hpv|].
  destruct (_pwm_from_fan_float _ Epwm) as [->|[f ->]]; repeat constructor.
Qed.

(** the two passes of [get_fan_metrics] collect floats only as PWM values *)
Lemma fan_passes_pwm_floats col s0 rv0 pv0 s1 rv pv s2 :
  fan_subsystem_pass col ([], []) s0 = (Ok (rv0, pv0), s1) ->
  fan_thermal_pass col (rv0, pv0) s1 = (Ok (rv, pv), s2) ->
  Forall (fun v => is_float v = true) pv.
Proof.
  pose (Q := fun values : list pyval * list pyval =>
               Forall (fun v => is_float v = true) (snd values)).
  assert (K1 : forall values, Q values ->
             keeps (fun _ => True) Q (fan_subsystem_pass col values)).
  { intros values Hv. unfold fan_subsystem_pass.
    destruct (truthy (urls col "ThermalSubsystem")); [| now apply keeps_ret].
    apply keeps_bind_any; [intros s _; split; intros; exact I|]. intros ts_data.
    apply keeps_bind_any; [apply keeps_lift; intros; exact I|]. intros pointer.
    apply keeps_bind_any; [apply keeps_lift; intros; exact I|]. intros fans_url.
    destruct (truthy fans_url); [| now apply keeps_ret].
    apply keeps_bind_any; [intros s _; split; intros; exact I|]. intros collection.
    apply keeps_bind_any; [apply keeps_lift; intros; exact I|]. intros listed.
    apply keeps_bind_any; [apply keeps_lift; intros; exact I|]. intros members.
    apply keeps_for_fold; [|exact Hv]. intros acc member Hacc.
    apply keeps_bind_any; [apply keeps_lift; intros; exact I|]. intros url.
    apply keeps_bind_any; [intros s _; split; intros; exact I|]. intros fan_data.
    now apply append_fan_floats. }
  assert (K2 : forall values, Q values ->
             keeps (fun _ => True) Q (fan_thermal_pass col values)).
  { intros values Hv. unfold fan_thermal_pass.
    destruct (negb (truthy (PList (fst values))) && truthy (urls col "Thermal"));
      [| now apply keeps_ret].
    apply keeps_bind_any; [intros s _; split; intros; exact I|]. intros thermal.
    apply keeps_bind_any; [apply keeps_lift; intros; exact I|]. intros listed.
    apply keeps_bind_any; [apply keeps_lift; intros; exact I|]. intros fans.
    apply keeps_for_fold; [|exact Hv]. intros acc fan Hacc.
    now apply append_fan_floats. }
  intros H1 H2.
  assert (Q0 : Q (rv0, pv0)).
  { apply (proj2 (K1 ([], []) (Forall_nil _) s0 I)). now rewrite H1. }
  change (Q (rv, pv)). apply (proj2 (K2 (rv0, pv0) Q0 s1 I)). now rewrite H2.
Qed.

(** C6 fails as stated: at a target whose [ThermalSubsystem] fan reports a
    duty cycle of 50 and no speed, and whose deprecated [Thermal] fan
    reports a duty cycle of 100, the emitted PWM sample is 75, the mean of
    both, and not the 100 of the deprecated path alone. *)
Lemma modern_pwm_not_discarded :
  fst (fan_subsystem_pass both_fan_schemas ([], []) initial_state) =
    Ok ([], [PFloat (float_of_Z 50)]) /\
  map sample_value (fan_pwm_metrics (snd (get_fan_metrics deprecated_thermal_only initial_state))) =
    [PFloat (float_of_Z 100)] /\
  map sample_value (fan_pwm_metrics (snd (get_fan_metrics both_fan_schemas initial_state))) =
    [PFloat (float_of_Z 75)] /\
  map sample_value (fan_pwm_metrics (snd (get_fan_metrics both_fan_schemas initial_state))) <>
  map sample_value (fan_pwm_metrics (snd (get_fan_metrics deprecated_thermal_only initial_state))).
Proof. vm_compute. repeat split. discriminate. Qed.

(** C6, as the code has it: for a target whose [ThermalSubsystem] fans
    yield PWM values but no RPM values, the fallback to the deprecated
    [Thermal] resource keeps the modern PWM values; the values of the
    deprecated path are appended after them, all of them floats, and when
    the RPM average returns the emitted PWM sample is the mean of the
    modern and the deprecated values together. When the RPM average raises
    the pass ends with that exception and no PWM sample is emitted. *)
Theorem fallback_keeps_modern_pwm col s pwm_values s1 rpm_values' pwm_values' s2 :
  fan_subsystem_pass col ([], [])
    (snd (logging INFO "Target %s: Gathering fan data …" [PStr (target col)] s)) =
    (Ok ([], pwm_values), s1) ->
  fan_thermal_pass col ([], pwm_values) s1 = (Ok (rpm_values', pwm_values'), s2) ->
  exists deprecated_pwm,
    pwm_values' = pwm_values ++ deprecated_pwm /\
    get_fan_metrics col s = fan_averages col (rpm_values', pwm_values ++ deprecated_pwm) s2 /\
    Forall (fun v => is_float v = true) (pwm_values ++ deprecated_pwm) /\
    (forall a,
        average_of rpm_values' = Ok a ->
        pwm_values <> [] ->
        exists mean,
          py_mean (pwm_values ++ deprecated_pwm) = Ok (PFloat mean) /\
          fst (get_fan_metrics col s) = Ok tt /\
          fan_pwm_metrics (snd (get_fan_metrics col s)) =
          fan_pwm_metrics s ++
          [mkSample "redfish_fan_speed_pwm_percent"
             (dict_update [("type", PStr "average")] (labels col)) (PFloat mean)]) /\
    (forall e,
        average_of rpm_values' = Raise e ->
        fst (get_fan_metrics col s) = Raise e /\
        fan_pwm_metrics (snd (get_fan_metrics col s)) = fan_pwm_metrics s).
Proof.
  intros Hmodern Hfallback.
  assert (Hext : exists more_rpm deprecated_pwm,
             rpm_values' = [] ++ more_rpm /\ pwm_values' = pwm_values ++ deprecated_pwm).
  { revert Hfallback. unfold fan_thermal_pass. cbn [fst truthy negb andb].
    destruct (truthy (urls col "Thermal")).
    - rewrite bind_run. unfold connect at 1 2. cbn [fst snd].
      destruct (connect_server col (urls col "Thermal")) as [thermal|e]; [|discriminate].
      rewrite bind_lift. destruct (py_get thermal "Fans" (PList [])); [|discriminate].
      rewrite bind_lift. destruct (py_iter a) as [fans|e]; [|discriminate].
      apply for_fold_append_fan_extends.
    - unfold ret. intros E. injection E as <- <- _. exists [], []. now rewrite !app_nil_r. }
  destruct Hext as (more_rpm & deprecated_pwm & _ & Hpwm).
  exists deprecated_pwm. split; [exact Hpwm|].
  assert (Hrun : get_fan_metrics col s =
                 fan_averages col (rpm_values', pwm_values ++ deprecated_pwm) s2).
  { unfold get_fan_metrics. rewrite bind_logging, bind_run, Hmodern. cbn [fst snd].
    rewrite bind_run, Hfallback. cbn [fst snd]. now rewrite Hpwm. }
  split; [exact Hrun|].
  assert (Hfloats : Forall (fun v => is_float v = true) (pwm_values ++ deprecated_pwm)).
  { rewrite <- Hpwm. exact (@fan_passes_pwm_floats col _ _ _ _ _ _ _ Hmodern Hfallback). }
  split; [exact Hfloats|].
  assert (Hsame : fan_pwm_metrics s2 = fan_pwm_metrics s).
  { pose proof (fan_subsystem_pass_fetch_only col ([], [])
      (snd (logging INFO "Target %s: Gathering fan data …" [PStr (target col)] s))) as F1.
    pose proof (fan_thermal_pass_fetch_only col ([], pwm_values) s1) as F2.
    rewrite Hmodern in F1. rewrite Hfallback in F2. cbn [snd] in F1, F2.
    destruct F1 as (_ & _ & _ & F1 & _). destruct F2 as (_ & _ & _ & F2 & _).
    rewrite F2, F1. reflexivity. }
  split.
  - intros a Hr Hne. rewrite Hrun.
    destruct (average_of_floats Hfloats) as [b Hb].
    destruct (@fan_averages_return col _ _ s2 _ _ Hr Hb)
      as (s' & r & p & w & Hs' & _ & Hp' & _ & _ & Hm).
    destruct (pwm_values ++ deprecated_pwm) as [|u rest] eqn:E.
    { destruct pwm_values; [congruence | discriminate]. }
    destruct Hm as (mean & Hmean & -> & _).
    exists mean. split; [exact Hmean|]. rewrite Hs'. cbn [fst snd].
    split; [reflexivity|]. rewrite Hp'. now rewrite Hsame.
  - intros e He. rewrite Hrun, (@fan_averages_rpm_raises col _ _ s2 _ He). cbn [fst snd].
    split; [reflexivity | exact Hsame].
Qed.

Lemma fallback_keeps_modern_pwm_witness :
  exists deprecated_pwm s2,
    get_fan_metrics both_fan_schemas initial_state =
    fan_averages both_fan_schemas
      ([PInt 1000], [PFloat (float_of_Z 50)] ++ deprecated_pwm) s2.
Proof.
  destruct (@fallback_keeps_modern_pwm both_fan_schemas initial_state
              [PFloat (float_of_Z 50)] _ [PInt 1000]
              [PFloat (float_of_Z 50); PFloat (float_of_Z 100)] _ eq_refl eq_refl)
    as (deprecated_pwm & _ & H & _).
  eexists. eexists. exact H.
Defined.




(** ** Thermal reconciliation *)

Lemma dict_get_in_wf d k v : dict_wf d -> In (k, v) d -> dict_get k d = Some v.
Proof.
  unfold dict_wf. induction d as [|[k1 v1] d IH]; simpl; intros Hwf Hin; [tauto|].
  inversion Hwf as [|? ? Hnotin Hnd]; subst.
  destruct Hin as [E|Hin].
  - injection E as -> ->. now rewrite String.eqb_refl.
  - destruct (String.eqb_spec k k1) as [->|Hne]; [|now apply IH].
    exfalso. apply Hnotin. unfold dict_keys. now apply (in_map fst d (k1, v)).
Qed.

(** the loop of [get_temp_metrics] over entries that have a reading *)
Lemma summary_loop col summary :
  forall rest s,
    (forall kv, In kv rest -> dict_get (fst kv) summary = Some (snd kv)) ->
    Forall (fun entry => has_reading (snd entry) = true) rest ->
    for_each (map PStr (dict_keys rest))
      (fun metric =>
         let current_labels := dict_update [("type", metric)] (labels col) in
         entry <- lift (py_index (PDict summary) metric) ;;
         reading <- lift (py_getitem entry "Reading") ;;
         add_temperature_sample "redfish_temperature" (nan_if_none reading) current_labels) s =
    (Ok tt,
     mkState (power_metrics s)
       (temperature_metrics s ++ map (summary_sample (labels col)) rest)
       (fan_speed_metrics s) (fan_pwm_metrics s) (log s) (requests s)).
Proof.
  induction rest as [|[k e] rest IH]; intros s Hget Hread; cbn [map dict_keys for_each].
  - unfold ret. rewrite app_nil_r. now destruct s.
  - inversion Hread as [|? ? He Hrest]; subst. cbn [snd fst] in *.
    destruct e as [| | | | | |ed]; try discriminate He.
    unfold has_reading, dict_mem in He.
    destruct (dict_get "Reading" ed) as [r|] eqn:Er; [|discriminate He].
    pose proof (Hget (k, PDict ed) (or_introl eq_refl)) as Hk. cbn [fst snd] in Hk.
    rewrite bind_run. cbv zeta.
    assert (Hstep :
      (entry <- lift (py_index (PDict summary) (PStr k)) ;;
       reading <- lift (py_getitem entry "Reading") ;;
       add_temperature_sample "redfish_temperature" (nan_if_none reading)
         (dict_update [("type", PStr k)] (labels col))) s =
      (Ok tt,
       mkState (power_metrics s)
         (temperature_metrics s ++ [summary_sample (labels col) (k, PDict ed)])
         (fan_speed_metrics s) (fan_pwm_metrics s) (log s) (requests s))).
    { rewrite bind_lift. cbn [py_index]. rewrite Hk. rewrite bind_lift.
      unfold summary_sample, reading_of, py_getitem. cbn [py_index fst snd].
      now rewrite Er. }
    rewrite Hstep. cbn [fst snd]. fold (dict_keys rest).
    rewrite IH; [| intros kv Hin; apply Hget; now right | exact Hrest].
    cbn [power_metrics temperature_metrics fan_speed_metrics fan_pwm_metrics log requests].
    now rewrite <- app_assoc.
Qed.



(** ** Null and absent power fields *)

(** C9: for the direct fields of the [PowerSubsystem] ([CapacityWatts],
    [Allocation]) a field that is present with a null value gives exactly
    one sample, not-a-number, under the labels a number would get, and a
    field that is absent gives no sample. For the readings of a power
    supply's [Metrics] the absent field gives no sample as well, but the
    null that becomes not-a-number is that of [Reading] inside the field: a
    field that is itself null raises [TypeError] at the subscript and gives
    no sample, and a field object without [Reading] raises [KeyError]. At
    a target whose supply reports [PowerInputWatts] as null the power pass
    ends with [TypeError], after the direct fields and before any sample of
    the supply. *)
Theorem null_power_field_samples col s :
  (forall ps metric,
      dict_get metric ps = None ->
      power_subsystem_field col (PDict ps) metric s = (Ok tt, s)) /\
  (forall ps metric v,
      dict_get metric ps = Some v ->
      is_dict v = false ->
      power_subsystem_field col (PDict ps) metric s =
      (Ok tt,
       with_power s
         [mkSample "redfish_power" (dict_update [("type", PStr metric)] (labels col))
            (nan_if_none v)])) /\
  (forall lbls pm metric,
      dict_get metric pm = None ->
      power_supply_reading lbls (PDict pm) metric s = (Ok tt, s)) /\
  (forall lbls pm metric entry reading,
      dict_get metric pm = Some (PDict entry) ->
      dict_get "Reading" entry = Some reading ->
      power_supply_reading lbls (PDict pm) metric s =
      (Ok tt,
       with_power s
         [mkSample "redfish_power" (dict_update [("type", PStr metric)] lbls)
            (nan_if_none reading)])) /\
  (forall lbls pm metric,
      dict_get metric pm = Some PNone ->
      power_supply_reading lbls (PDict pm) metric s = (Raise TypeError, s)) /\
  (forall lbls pm metric entry,
      dict_get metric pm = Some (PDict entry) ->
      dict_get "Reading" entry = None ->
      power_supply_reading lbls (PDict pm) metric s = (Raise KeyError, s)) /\
  nan_if_none PNone = nan /\
  (forall v, is_none v = false -> nan_if_none v = v) /\
  map (fun smp => (dict_get "type" (sample_labels smp), sample_value smp))
    (power_metrics (snd (get_power_metrics modern_power_only initial_state))) =
  [(Some (PStr "CapacityWatts"), nan); (Some (PStr "PowerInputWatts"), PInt 100)] /\
  fst (get_power_metrics null_supply_metric initial_state) = Raise TypeError /\
  map (fun smp => (dict_get "type" (sample_labels smp), sample_value smp))
    (power_metrics (snd (get_power_metrics null_supply_metric initial_state))) =
  [(Some (PStr "CapacityWatts"), nan)].
Proof.
  repeat split.
  - intros ps metric Habsent. unfold power_subsystem_field.
    rewrite bind_lift. cbn [py_contains]. unfold dict_mem. now rewrite Habsent.
  - intros ps metric v Hv Hnd. unfold power_subsystem_field.
    rewrite bind_lift. cbn [py_contains]. unfold dict_mem. rewrite Hv. cbn [negb].
    rewrite bind_lift. unfold py_getitem. cbn [py_index]. rewrite Hv.
    destruct v; try discriminate Hnd; reflexivity.
  - intros lbls pm metric Habsent. unfold power_supply_reading.
    rewrite bind_lift. cbn [py_contains]. unfold dict_mem. now rewrite Habsent.
  - intros lbls pm metric entry reading Hentry Hreading. unfold power_supply_reading.
    rewrite bind_lift. cbn [py_contains]. unfold dict_mem. rewrite Hentry. cbn [negb].
    rewrite bind_lift. unfold py_getitem. cbn [py_index]. rewrite Hentry.
    rewrite bind_lift. cbn [py_index]. now rewrite Hreading.
  - intros lbls pm metric Hnull. unfold power_supply_reading.
    rewrite bind_lift. cbn [py_contains]. unfold dict_mem. rewrite Hnull. cbn [negb].
    rewrite bind_lift. unfold py_getitem. cbn [py_index]. rewrite Hnull.
    reflexivity.
  - intros lbls pm metric entry Hentry Hreading. unfold power_supply_reading.
    rewrite bind_lift. cbn [py_contains]. unfold dict_mem. rewrite Hentry. cbn [negb].
    rewrite bind_lift. unfold py_getitem. cbn [py_index]. rewrite Hentry.
    rewrite bind_lift. cbn [py_index]. now rewrite Hreading.
  - intros v Hv. unfold nan_if_none. now rewrite Hv.
Qed.

Lemma null_power_field_samples_witness :
  power_supply_reading base_labels
    (PDict [("PowerInputWatts", PDict [("Reading", PNone)])]) "PowerInputWatts"
    initial_state =
  (Ok tt,
   with_power initial_state
     [mkSample "redfish_power"
        (dict_update [("type", PStr "PowerInputWatts")] base_labels) nan]) /\
  power_supply_reading base_labels
    (PDict [("PowerInputWatts", PNone)]) "PowerInputWatts" initial_state =
  (Raise TypeError, initial_state).
Proof.
  destruct (null_power_field_samples both_power_schemas initial_state)
    as (_ & _ & _ & H & H' & _).
  split.
  - exact (H base_labels [("PowerInputWatts", PDict [("Reading", PNone)])] "PowerInputWatts"
             [("Reading", PNone)] PNone eq_refl eq_refl).
  - exact (H' base_labels [("PowerInputWatts", PNone)] "PowerInputWatts" eq_refl).
Defined.

(** * Further properties of the collector *)

(** ** Per-fan RPM extraction *)

(** X1: on a fan object [_rpm_from_fan] never raises; it returns [Reading]
    when [ReadingUnits] is ["RPM"] and [Reading] is not null, else
    [ReadingRPM] when that is not null, else [None], and it returns the
    value as the resource has it, without the coercion the PWM path
    applies. *)
Theorem rpm_extraction_order fan :
  _rpm_from_fan (PDict fan) = Ok (rpm_by_priority fan).
Proof.
  unfold _rpm_from_fan, rpm_by_priority, rpm_candidates, rpm_units.
  destruct fan as [|kv fan']; [reflexivity|].
  cbn [truthy negb]. set (fan := kv :: fan').
  unfold py_get, py_getitem, py_index.
  destruct (dict_get "ReadingUnits" fan) as [u|]; cbn [obind];
    [generalize (eq_str u "RPM"); intros b; destruct b |];
    cases_of (dict_get "Reading" fan);
    cases_of (dict_get "ReadingRPM" fan); tidy; reflexivity.
Qed.

(** X2: a fan that is no object: a falsy one ([None], [0], the empty
    string or list) is skipped by both extractions, a truthy one makes both
    raise [AttributeError]. *)
Theorem fan_not_an_object v :
  is_dict v = false ->
  _rpm_from_fan v = (if truthy v then Raise AttributeError else Ok PNone) /\
  _pwm_from_fan v = (if truthy v then Raise AttributeError else Ok PNone).
Proof.
  intros Hv. unfold _rpm_from_fan, _pwm_from_fan, pwm_value.
  destruct (truthy v); cbn [negb]; [|split; reflexivity].
  destruct v; try discriminate Hv; split; reflexivity.
Qed.

Lemma fan_not_an_object_witness :
  is_dict (PStr "Fan 1") = false /\
  _rpm_from_fan (PStr "Fan 1") = Raise AttributeError /\
  _pwm_from_fan PNone = Ok PNone.
Proof.
  split; [reflexivity|].
  destruct (@fan_not_an_object (PStr "Fan 1") eq_refl) as [H _].
  destruct (@fan_not_an_object PNone eq_refl) as [_ H'].
  split; [exact H | exact H'].
Defined.

(** ** A target that advertises no schema *)

(** X3: when none of the four locators is present, a cycle fetches
    nothing, emits no sample and returns normally; all it leaves is its
    log: the missing power, fan RPM and fan PWM data are warned about,
    the missing thermal data is not. *)
Theorem collect_without_locators col s :
  truthy (urls col "PowerSubsystem") = false ->
  truthy (urls col "Power") = false ->
  truthy (urls col "ThermalSubsystem") = false ->
  truthy (urls col "Thermal") = false ->
  collect col s =
  (Ok tt,
   grow s []
     [mkLog INFO "Target %s: Collecting performance data ..." [PStr (target col)];
      mkLog INFO "Target %s: Get the PDU Power data." [PStr (target col)];
      mkLog WARNING no_power_url (identity col);
      mkLog INFO "Target %s: Get the Thermal data." [PStr (target col)];
      mkLog INFO "Target %s: Gathering fan data …" [PStr (target col)];
      mkLog WARNING no_rpm_data (identity col);
      mkLog WARNING no_pwm_data (identity col)]
     []).
Proof.
  intros Hps Hp Hts Ht.
  unfold collect, get_power_metrics, get_temp_metrics, get_fan_metrics,
    fan_subsystem_pass, fan_thermal_pass, fan_averages.
  rewrite Hps, Hp, Hts, Ht. unfold grow, bind, ret, logging. cbn.
  rewrite !app_nil_r, <- !app_assoc. reflexivity.
Qed.

Lemma collect_without_locators_witness :
  exists s', collect (target_of [] []) initial_state = (Ok tt, s') /\ requests s' = [].
Proof.
  eexists. split.
  - exact (@collect_without_locators (target_of [] []) initial_state
             eq_refl eq_refl eq_refl eq_refl).
  - reflexivity.
Defined.

(** ** The deprecated power schema *)

(** X4: an empty answer to the fetch of the deprecated [Power] resource
    (an empty object or string, [None]) ends the fallback pass at once: it
    returns [True], emits nothing and does not raise. *)
Theorem old_power_empty_answer col s doc :
  connect_server col (urls col "Power") = Ok doc ->
  truthy doc = false ->
  get_old_power_metrics col s =
  (Ok true,
   grow s []
     [mkLog DEBUG "Target %s: Fallback to deprecated Power URL." [PStr (target col)]]
     [urls col "Power"]).
Proof.
  intros Hdoc Hfalsy. unfold get_old_power_metrics.
  rewrite bind_logging, bind_run. unfold connect. cbn [fst snd].
  rewrite Hdoc, Hfalsy. unfold grow, ret, logging. cbn.
  now rewrite app_nil_r.
Qed.

Lemma old_power_empty_answer_witness :
  fst (get_old_power_metrics (target_of [("Power", PStr "/power")] [("/power", PStr "")])
         initial_state) = Ok true.
Proof.
  rewrite (@old_power_empty_answer
             (target_of [("Power", PStr "/power")] [("/power", PStr "")])
             initial_state (PStr "") eq_refl eq_refl).
  reflexivity.
Defined.

Lemma with_power_nil s : with_power s [] = s.
Proof. destruct s. unfold with_power. cbn. now rewrite app_nil_r. Qed.

Lemma with_power_app s a b : with_power (with_power s a) b = with_power s (a ++ b).
Proof. unfold with_power. cbn. now rewrite app_assoc. Qed.

Lemma unknown_if_none_dict psu key :
  unknown_if_none (PDict psu) key = Ok (or_unknown psu key).
Proof.
  unfold unknown_if_none, or_unknown, py_get.
  destruct (dict_get key psu) as [[]|]; reflexivity.
Qed.

Lemma bind_add_power B name v lbls (k : unit -> M B) s :
  bind (add_power_sample name v lbls) k s = k tt (with_power s [mkSample name lbls v]).
Proof. reflexivity. Qed.

(** the loop over the metrics of one supply of the deprecated schema *)
Lemma old_power_metric_loop col psu metrics :
  forall flag s,
    for_fold metrics flag
      (fun no_psu_metrics metric =>
         present <- lift (py_contains metric (PDict psu)) ;;
         if negb present then ret no_psu_metrics
         else
           v <- lift (py_getitem (PDict psu) metric) ;;
           let current_labels :=
             dict_update
               [("device_name", or_unknown psu "Name");
                ("device_model", or_unknown psu "Model");
                ("type", PStr metric)] (labels col) in
           add_power_sample "redfish_power" (nan_if_none v) current_labels ;;
           ret false) s =
    (Ok (flag && is_empty (psu_samples (labels col) metrics psu)),
     with_power s (psu_samples (labels col) metrics psu)).
Proof.
  induction metrics as [|metric metrics IH]; intros flag s; cbn [for_fold].
  - unfold ret, psu_samples. cbn. now rewrite with_power_nil, andb_true_r.
  - rewrite bind_run, bind_lift. cbn [py_contains]. unfold dict_mem, py_getitem.
    cbn [py_index]. unfold psu_samples. cbn [flat_map].
    fold (psu_samples (labels col) metrics psu).
    destruct (dict_get metric psu) as [v|]; cbn [negb].
    + rewrite bind_lift. cbv zeta. rewrite bind_add_power. unfold ret.
      cbn [fst snd]. rewrite IH, with_power_app.
      cbn [app is_empty andb]. now rewrite andb_false_r.
    + unfold ret. cbn [fst snd app]. apply IH.
Qed.

(** X5: the fallback pass on a [Power] resource whose [PowerSupplies] is
    a list of objects: for every supply, in order, one sample for each of
    [PowerOutputWatts], [EfficiencyPercent], [PowerInputWatts] and
    [LineInputVoltage] that the supply has, a null value as not-a-number,
    labeled with [device_name] and [device_model] (["unknown"] when the
    name or model is absent or null) and [type]; one fetch; and the flag
    it returns is [True] exactly when it emitted no sample. *)
Theorem old_power_samples col s doc psus :
  connect_server col (urls col "Power") = Ok (PDict doc) ->
  dict_get "PowerSupplies" doc = Some (PList (map PDict psus)) ->
  let samples := flat_map (psu_samples (labels col) old_power_metrics) psus in
  get_old_power_metrics col s =
  (Ok (is_empty samples),
   grow s samples
     [mkLog DEBUG "Target %s: Fallback to deprecated Power URL." [PStr (target col)]]
     [urls col "Power"]).
Proof.
  intros Hdoc Hsupplies samples. unfold get_old_power_metrics.
  rewrite bind_logging, bind_run. unfold connect. cbn [fst snd]. rewrite Hdoc.
  assert (Htruthy : truthy (PDict doc) = true) by (destruct doc; [discriminate | reflexivity]).
  rewrite Htruthy. cbn [negb]. cbv zeta.
  rewrite bind_lift. unfold py_getitem at 1. cbn [py_index]. rewrite Hsupplies.
  rewrite bind_lift. cbn [py_iter].
  match goal with |- for_fold _ _ ?F _ = _ => set (body := F) end.
  assert (Hstep : forall psu flag s0,
             body flag (PDict psu) s0 =
             (Ok (flag && is_empty (psu_samples (labels col) old_power_metrics psu)),
              with_power s0 (psu_samples (labels col) old_power_metrics psu))).
  { intros psu flag s0. unfold body.
    rewrite bind_lift, unknown_if_none_dict. cbv beta iota.
    rewrite bind_lift, unknown_if_none_dict. cbv beta iota.
    apply old_power_metric_loop. }
  assert (Hloop : forall psus flag s0,
             for_fold (map PDict psus) flag body s0 =
             (Ok (flag && is_empty (flat_map (psu_samples (labels col) old_power_metrics) psus)),
              with_power s0 (flat_map (psu_samples (labels col) old_power_metrics) psus))).
  { clear - Hstep. induction psus as [|psu psus IH]; intros flag s0;
      cbn [map for_fold flat_map].
    - unfold ret. cbn. now rewrite with_power_nil, andb_true_r.
    - rewrite bind_run, Hstep. cbn [fst snd]. rewrite IH, with_power_app.
      f_equal. f_equal.
      destruct (psu_samples (labels col) old_power_metrics psu); cbn;
        now rewrite ?andb_true_r, ?andb_false_r. }
  rewrite Hloop. cbn [andb]. unfold with_power, grow, logging. cbn. reflexivity.
Qed.

Lemma old_power_samples_witness :
  fst (get_old_power_metrics deprecated_power_only initial_state) = Ok false.
Proof.
  rewrite (@old_power_samples deprecated_power_only initial_state
             [("PowerSupplies",
               PList [PDict [("Name", PStr "Old"); ("PowerOutputWatts", PInt 90)]])]
             [[("Name", PStr "Old"); ("PowerOutputWatts", PInt 90)]] eq_refl eq_refl).
  reflexivity.
Defined.

(** ** A power supply of the modern schema *)

Lemma power_supply_fields_dict data s :
  power_supply_fields (PDict data) s =
  (Ok [("Name", field_or_unknown data "Name");
       ("Manufacturer", field_or_unknown data "Manufacturer");
       ("Model", field_or_unknown data "Model")], s).
Proof.
  unfold power_supply_fields, field_or_unknown. cbn [for_fold].
  unfold bind, lift, ret, py_get.
  destruct (dict_get "Name" data), (dict_get "Manufacturer" data), (dict_get "Model" data);
    reflexivity.
Qed.

Lemma power_supply_reading_dict lbls readings metric s :
  (forall entry, dict_get metric readings = Some entry -> has_reading entry = true) ->
  power_supply_reading lbls (PDict readings) metric s =
  (Ok tt,
   with_power s
     match dict_get metric readings with
     | Some entry =>
         [mkSample "redfish_power" (dict_update [("type", PStr metric)] lbls)
            (nan_if_none (reading_of entry))]
     | None => []
     end).
Proof.
  intros Hentry. unfold power_supply_reading.
  rewrite bind_lift. cbn [py_contains]. unfold dict_mem, py_getitem at 1. cbn [py_index].
  destruct (dict_get metric readings) as [entry|]; cbn [negb];
    [| unfold ret; now rewrite with_power_nil].
  rewrite bind_lift. specialize (Hentry entry eq_refl).
  destruct entry as [| | | | | |e]; try discriminate Hentry.
  unfold has_reading, dict_mem in Hentry. unfold reading_of, py_getitem. cbn [py_index].
  destruct (dict_get "Reading" e) as [r|]; [|discriminate Hentry].
  rewrite bind_lift. reflexivity.
Qed.

(** X6: a power supply whose detail resource has a [Metrics] link to a
    resource in which each of the three readings that is present has a
    [Reading], whatever else the resource holds: two fetches,
    and one sample for each of [PowerInputWatts], [PowerOutputWatts] and
    [PowerCapacityWatts] present, in that order, a null reading as
    not-a-number, labeled [type], [Name], [Manufacturer] and [Model] (an
    absent field as ["unknown"], a null one as it is); the pass returns
    [False] however many samples it emitted, also none. *)
Theorem modern_supply_samples col s power_supply url data pointer url2 readings :
  py_getitem power_supply "@odata.id" = Ok url ->
  connect_server col url = Ok (PDict data) ->
  dict_get "Metrics" data = Some pointer ->
  py_getitem pointer "@odata.id" = Ok url2 ->
  connect_server col url2 = Ok (PDict readings) ->
  (forall metric entry,
      In metric ["PowerInputWatts"; "PowerOutputWatts"; "PowerCapacityWatts"] ->
      dict_get metric readings = Some entry ->
      has_reading entry = true) ->
  get_power_supply_metrics col power_supply s =
  (Ok false, grow s (supply_samples (labels col) data readings) [] [url; url2]).
Proof.
  intros Hurl Hdata Hpointer Hurl2 Hreadings Hentries. unfold get_power_supply_metrics.
  cbv zeta. rewrite bind_lift, Hurl. rewrite bind_run. unfold connect. cbn [fst snd].
  rewrite Hdata. rewrite bind_lift. cbn [py_contains]. unfold dict_mem. rewrite Hpointer.
  cbn [negb]. rewrite bind_run, power_supply_fields_dict. cbn [fst snd].
  rewrite bind_lift. unfold py_getitem at 1. cbn [py_index]. rewrite Hpointer.
  rewrite bind_lift, Hurl2. rewrite bind_run. cbn [fst snd]. rewrite Hreadings.
  fold (supply_labels (labels col) data).
  assert (Hloop : forall s1,
             for_each ["PowerInputWatts"; "PowerOutputWatts"; "PowerCapacityWatts"]
               (power_supply_reading (supply_labels (labels col) data) (PDict readings)) s1 =
             (Ok tt, with_power s1 (supply_samples (labels col) data readings))).
  { intros s1. cbn [for_each].
    do 3 (rewrite bind_run, power_supply_reading_dict
            by (intros entry; apply Hentries; simpl; tauto);
          cbn [fst snd]).
    unfold ret, supply_samples. cbn [flat_map]. now rewrite !with_power_app, app_nil_r. }
  rewrite bind_run, Hloop. unfold ret, with_power, grow. cbn [fst snd].
  cbn [power_metrics temperature_metrics fan_speed_metrics fan_pwm_metrics log requests].
  now rewrite !app_nil_r, <- !app_assoc.
Qed.

Lemma modern_supply_samples_witness :
  fst (get_power_supply_metrics supply_with_identifier (link "/ps/1") initial_state) =
    Ok false /\
  map (fun smp => (dict_get "type" (sample_labels smp), sample_value smp))
    (power_metrics
       (snd (get_power_supply_metrics supply_with_identifier (link "/ps/1") initial_state))) =
  [(Some (PStr "PowerInputWatts"), PInt 100); (Some (PStr "PowerOutputWatts"), nan)].
Proof.
  rewrite (@modern_supply_samples supply_with_identifier initial_state (link "/ps/1")
             (PStr "/ps/1")
             [("Name", PStr "PSU1"); ("Metrics", link "/ps/1/metrics")]
             (link "/ps/1/metrics") (PStr "/ps/1/metrics")
             [("@odata.id", PStr "/ps/1/metrics");
              ("Id", PStr "Metrics");
              ("PowerInputWatts", PDict [("Reading", PInt 100)]);
              ("PowerOutputWatts", PDict [("Reading", PNone)])]
             eq_refl eq_refl eq_refl eq_refl eq_refl).
  - split; reflexivity.
  - intros metric entry [<-|[<-|[<-|[]]]]; cbn [dict_get String.eqb Ascii.eqb Bool.eqb];
      intros E; first [discriminate E | injection E as <-; reflexivity].
Defined.

(** X7: a power supply whose detail resource has no [Metrics] key is
    skipped: one fetch, one warning that names the supply (["unknown"]
    when it has no [Name]), no sample, and the pass returns [True]. *)
Theorem supply_without_metrics col s power_supply url data :
  py_getitem power_supply "@odata.id" = Ok url ->
  connect_server col url = Ok (PDict data) ->
  dict_get "Metrics" data = None ->
  get_power_supply_metrics col power_supply s =
  (Ok true,
   grow s []
     [mkLog WARNING
        "Target %s, Host %s, Model %s: No power supply metrics url found for %s."
        (identity col ++ [field_or_unknown data "Name"])]
     [url]).
Proof.
  intros Hurl Hdata Hnone. unfold get_power_supply_metrics.
  cbv zeta. rewrite bind_lift, Hurl. rewrite bind_run. unfold connect. cbn [fst snd].
  rewrite Hdata. rewrite bind_lift. cbn [py_contains]. unfold dict_mem. rewrite Hnone.
  cbn [negb]. rewrite bind_lift. unfold py_get, field_or_unknown.
  destruct (dict_get "Name" data); unfold bind, logging, ret, grow; cbn;
    now rewrite app_nil_r.
Qed.

Lemma supply_without_metrics_witness :
  fst (get_power_supply_metrics modern_power_only (link "/ps/2") initial_state) = Ok true.
Proof.
  rewrite (@supply_without_metrics modern_power_only initial_state (link "/ps/2")
             (PStr "/ps/2") [("Name", PStr "PSU2")] eq_refl eq_refl eq_refl).
  reflexivity.
Defined.

(** ** The direct fields of the [PowerSubsystem] resource *)

Lemma add_power_run name v lbls s :
  add_power_sample name v lbls s = (Ok tt, with_power s [mkSample name lbls v]).
Proof. reflexivity. Qed.

Lemma submetric_loop col sub :
  forall keys s,
    (forall k, In k keys -> dict_get k sub <> None) ->
    for_each keys
      (fun submetric =>
         let current_labels := dict_update [("type", PStr submetric)] (labels col) in
         v <- lift (py_getitem (PDict sub) submetric) ;;
         add_power_sample "redfish_power" (nan_if_none v) current_labels) s =
    (Ok tt,
     with_power s
       (map (fun submetric =>
               mkSample "redfish_power"
                 (dict_update [("type", PStr submetric)] (labels col))
                 (nan_if_none (match dict_get submetric sub with
                               | Some v => v
                               | None => PNone
                               end))) keys)).
Proof.
  induction keys as [|k keys IH]; intros s Hkeys; cbn [for_each map].
  - unfold ret. now rewrite with_power_nil.
  - rewrite bind_run. cbv zeta. rewrite bind_lift. unfold py_getitem. cbn [py_index].
    destruct (dict_get k sub) as [v|] eqn:Ek; [| now destruct (Hkeys k (or_introl eq_refl))].
    rewrite add_power_run. cbn [fst snd].
    rewrite IH by (intros k' Hin; apply Hkeys; now right).
    now rewrite with_power_app.
Qed.

Lemma power_subsystem_field_run col ps metric s :
  power_subsystem_field col (PDict ps) metric s =
  (Ok tt, with_power s (field_samples (labels col) ps metric)).
Proof.
  unfold power_subsystem_field, field_samples.
  rewrite bind_lift. cbn [py_contains]. unfold dict_mem, py_getitem at 1. cbn [py_index].
  destruct (dict_get metric ps) as [v|]; cbn [negb];
    [| unfold ret; now rewrite with_power_nil].
  rewrite bind_lift.
  destruct v as [| | | | | |sub]; try reflexivity.
  apply submetric_loop. intros k Hin Hnone.
  apply dict_get_none in Hnone. contradiction.
Qed.

(** X8: on a [PowerSubsystem] resource that is an object, the step for a
    direct field never raises: an absent field gives no sample, a field
    that is a mapping gives one sample per sub-key, in order and labeled
    with the sub-key (none for an empty mapping), any other value gives
    one sample labeled with the field name; a null value is emitted as
    not-a-number. *)
Theorem power_subsystem_field_samples col ps metric s :
  power_subsystem_field col (PDict ps) metric s =
  (Ok tt, with_power s (field_samples (labels col) ps metric)) /\
  (forall sub,
      dict_get metric ps = Some (PDict sub) ->
      List.length (field_samples (labels col) ps metric) = List.length sub).
Proof.
  split; [apply power_subsystem_field_run|].
  intros sub Hsub. unfold field_samples. rewrite Hsub.
  unfold dict_keys. now rewrite !length_map.
Qed.

Lemma power_subsystem_field_samples_witness :
  dict_get "Allocation"
    [("Allocation", PDict [("AllocatedWatts", PInt 800); ("RequestedWatts", PNone)])] =
    Some (PDict [("AllocatedWatts", PInt 800); ("RequestedWatts", PNone)]) /\
  List.length
    (field_samples (labels both_power_schemas)
       [("Allocation", PDict [("AllocatedWatts", PInt 800); ("RequestedWatts", PNone)])]
       "Allocation") = 2%nat.
Proof.
  split; [reflexivity|].
  destruct (@power_subsystem_field_samples both_power_schemas
              [("Allocation",
                PDict [("AllocatedWatts", PInt 800); ("RequestedWatts", PNone)])]
              "Allocation" initial_state) as [_ H].
  exact (H [("AllocatedWatts", PInt 800); ("RequestedWatts", PNone)] eq_refl).
Defined.

(** X9: a [PowerSubsystem] pass with no supply to walk returns [True]:
    when the resource has no usable [PowerSupplies] link it emits the
    samples of its direct fields, warns once and fetches nothing more;
    when the link leads to an empty member list it fetches the list and
    warns about nothing. *)
Theorem power_subsystem_without_supplies col s ps pointer supplies_url :
  connect_server col (urls col "PowerSubsystem") = Ok (PDict ps) ->
  py_get (PDict ps) "PowerSupplies" (PDict []) = Ok pointer ->
  py_get pointer "@odata.id" PNone = Ok supplies_url ->
  let direct :=
    field_samples (labels col) ps "CapacityWatts" ++
    field_samples (labels col) ps "Allocation" in
  let checking :=
    mkLog DEBUG "Target %s:Checking PowerSubsystem ..." [PStr (target col)] in
  (truthy supplies_url = false ->
   get_power_subsystem_metrics col s =
   (Ok true,
    grow s direct
      [checking;
       mkLog WARNING "Target %s, Host %s, Model %s: No power supplies url found."
         (identity col)]
      [urls col "PowerSubsystem"])) /\
  (forall collection members,
      truthy supplies_url = true ->
      connect_server col supplies_url = Ok collection ->
      py_getitem collection "Members" = Ok members ->
      py_iter members = Ok [] ->
      get_power_subsystem_metrics col s =
      (Ok true,
       grow s direct [checking] [urls col "PowerSubsystem"; supplies_url])).
Proof.
  intros Hps Hpointer Hurl direct checking.
  assert (Hstart :
             get_power_subsystem_metrics col s =
             (pointer <- lift (Ok pointer) ;;
              power_supplies_url <- lift (py_get pointer "@odata.id" PNone) ;;
              if negb (truthy power_supplies_url) then
                logging WARNING
                  "Target %s, Host %s, Model %s: No power supplies url found."
                  (identity col) ;;
                ret true
              else
                collection <- connect col power_supplies_url ;;
                members <- lift (py_getitem collection "Members") ;;
                power_supplies <- lift (py_iter members) ;;
                for_fold power_supplies true (fun _ power_supply =>
                  get_power_supply_metrics col power_supply))
               (grow s direct [checking] [urls col "PowerSubsystem"])).
  { unfold get_power_subsystem_metrics.
    rewrite bind_logging, bind_run. unfold connect at 1 2. cbn [fst snd]. rewrite Hps.
    rewrite bind_run. cbn [for_each].
    rewrite bind_run, power_subsystem_field_run. cbn [fst snd].
    rewrite bind_run, power_subsystem_field_run. cbn [fst snd].
    unfold ret at 1 2. cbn [fst snd]. rewrite with_power_app, Hpointer.
    unfold with_power, grow, logging, direct, checking. cbn [snd].
    cbn [power_metrics temperature_metrics fan_speed_metrics fan_pwm_metrics log requests].
    reflexivity. }
  rewrite Hstart. clear Hstart.
  rewrite bind_lift, bind_lift, Hurl. split.
  - intros Hfalsy. rewrite Hfalsy. cbn [negb]. unfold bind, logging, ret, grow. cbn.
    rewrite <- ?app_assoc, ?app_nil_r; reflexivity.
  - intros collection members Htruthy Hcollection Hmembers Hiter.
    rewrite Htruthy. cbn [negb]. rewrite bind_run. unfold connect. cbn [fst snd].
    rewrite Hcollection, bind_lift, Hmembers, bind_lift, Hiter. cbn [for_fold].
    unfold ret, grow. cbn. rewrite <- ?app_assoc, ?app_nil_r; reflexivity.
Qed.

Lemma power_subsystem_without_supplies_witness :
  fst (get_power_subsystem_metrics
         (target_of [("PowerSubsystem", PStr "/ps")]
            [("/ps", PDict [("CapacityWatts", PInt 750)])]) initial_state) = Ok true.
Proof.
  destruct (@power_subsystem_without_supplies
              (target_of [("PowerSubsystem", PStr "/ps")]
                 [("/ps", PDict [("CapacityWatts", PInt 750)])])
              initial_state [("CapacityWatts", PInt 750)] (PDict []) PNone
              eq_refl eq_refl eq_refl) as [H _].
  rewrite (H eq_refl). reflexivity.
Defined.

(** ** When the deprecated [Power] resource is fetched *)

(** whatever the target answers, the fallback pass fetches the [Power]
    locator and nothing else *)
Lemma get_old_power_metrics_requests col s :
  requests (snd (get_old_power_metrics col s)) = requests s ++ [urls col "Power"].
Proof.
  unfold get_old_power_metrics. rewrite bind_logging, bind_run.
  unfold connect at 1 2. cbn [fst snd].
  destruct (connect_server col (urls col "Power")) as [power_data|e]; [|reflexivity].
  match goal with
  | |- requests (snd (?rest ?s1)) = _ =>
      assert (K : keeps (fun s' => requests s' = requests s1) anything rest)
  end.
  { repeat first [ keeps_step | untouched ]. }
  apply (proj1 (K _ eq_refl)).
Qed.

(** X10: in power reconciliation the deprecated [Power] resource is
    fetched exactly when its locator is present and the [PowerSubsystem]
    pass was skipped or returned [True]; after a [PowerSubsystem] pass
    that returned [False] or raised, nothing more is fetched. *)
Theorem power_fallback_rule col s :
  let s0 := snd (logging INFO "Target %s: Get the PDU Power data." [PStr (target col)] s) in
  let modern :=
    if truthy (urls col "PowerSubsystem")
    then get_power_subsystem_metrics col s0
    else (Ok true, s0) in
  let due :=
    match fst modern with
    | Ok true => truthy (urls col "Power")
    | _ => false
    end in
  requests (snd (get_power_metrics col s)) =
  requests (snd modern) ++ (if due then [urls col "Power"] else []).
Proof.
  intros s0 modern due. unfold get_power_metrics.
  rewrite bind_logging, bind_run. fold s0.
  assert (Hmodern :
            (if truthy (urls col "PowerSubsystem")
             then get_power_subsystem_metrics col
             else ret true) s0 = modern).
  { subst modern. now destruct (truthy (urls col "PowerSubsystem")). }
  rewrite Hmodern. subst due.
  destruct modern as [[flag|e] s1]; cbn [fst snd]; [| now rewrite app_nil_r].
  rewrite bind_run.
  destruct flag; rewrite ?andb_true_r, ?andb_false_r;
    [destruct (truthy (urls col "Power")) |].
  - rewrite bind_run.
    pose proof (get_old_power_metrics_requests col s1) as Hold.
    destruct (get_old_power_metrics col s1) as [[flag'|e] s2]; cbn [fst snd] in *;
      exact Hold.
  - unfold ret, logging. cbn. now rewrite app_nil_r.
  - unfold ret. cbn. now rewrite app_nil_r.
Qed.

(** ** The fans of the [ThermalSubsystem] *)

Lemma grow_nothing s : grow s [] [] [] = s.
Proof. destruct s. unfold grow. cbn. now rewrite !app_nil_r. Qed.

Lemma grow_fetch s url more :
  grow (mkState (power_metrics s) (temperature_metrics s) (fan_speed_metrics s)
          (fan_pwm_metrics s) (log s) (requests s ++ [url])) [] [] more =
  grow s [] [] (url :: more).
Proof. unfold grow. cbn. now rewrite <- app_assoc. Qed.

(** the loop of [get_fan_metrics] over the members of the fan collection *)
Lemma fan_member_loop col members :
  forall member_urls fans rpms pwms rv pv s,
    Forall2 (fun member url => py_getitem member "@odata.id" = Ok url) members member_urls ->
    Forall2 (fun url fan => connect_server col url = Ok fan) member_urls fans ->
    Forall2 (fun fan rpm => _rpm_from_fan fan = Ok rpm) fans rpms ->
    Forall2 (fun fan pwm => _pwm_from_fan fan = Ok pwm) fans pwms ->
    for_fold members (rv, pv)
      (fun values member =>
         url <- lift (py_getitem member "@odata.id") ;;
         fan_data <- connect col url ;;
         append_fan values fan_data) s =
    (Ok (rv ++ present rpms, pv ++ present pwms), grow s [] [] member_urls).
Proof.
  induction members as [|member members IH];
    intros member_urls fans rpms pwms rv pv s Hurls Hfans Hrpms Hpwms;
    inversion Hurls as [|? url ? urls' Hurl Hurls']; subst;
    inversion Hfans as [|? fan ? fans' Hfan Hfans']; subst;
    inversion Hrpms as [|? rpm ? rpms' Hrpm Hrpms']; subst;
    inversion Hpwms as [|? pwm ? pwms' Hpwm Hpwms']; subst; cbn [for_fold].
  - unfold ret, present. cbn. now rewrite !app_nil_r, grow_nothing.
  - assert (Hstep :
      (url <- lift (py_getitem member "@odata.id") ;;
       fan_data <- connect col url ;;
       append_fan (rv, pv) fan_data) s =
      (Ok (rv ++ present [rpm], pv ++ present [pwm]),
       mkState (power_metrics s) (temperature_metrics s) (fan_speed_metrics s)
         (fan_pwm_metrics s) (log s) (requests s ++ [url]))).
    { rewrite bind_lift, Hurl. unfold bind, connect.
      now rewrite Hfan, append_fan_run, Hrpm, Hpwm. }
    rewrite bind_run, Hstep. cbn [fst snd].
    rewrite (IH urls' fans' rpms' pwms' _ _ _ Hurls' Hfans' Hrpms' Hpwms').
    rewrite grow_fetch. unfold present. cbn [filter].
    destruct (is_none rpm), (is_none pwm); cbn [negb app];
      rewrite <- ?app_assoc, ?app_nil_r; reflexivity.
Qed.

(** X11: the [ThermalSubsystem] pass of fan reconciliation. Without a
    usable [Fans] link it fetches the subsystem resource only and leaves
    both lists as they are. With one, it fetches the collection and then
    every member in order, and appends the RPM and the PWM value of each
    fan that has one; a collection without [Members] counts as empty. *)
Theorem fan_subsystem_walk col rv pv s ts_data pointer fans_url :
  truthy (urls col "ThermalSubsystem") = true ->
  connect_server col (urls col "ThermalSubsystem") = Ok ts_data ->
  py_get ts_data "Fans" (PDict []) = Ok pointer ->
  py_get pointer "@odata.id" PNone = Ok fans_url ->
  (truthy fans_url = false ->
   fan_subsystem_pass col (rv, pv) s =
   (Ok (rv, pv), grow s [] [] [urls col "ThermalSubsystem"])) /\
  (forall collection listed members member_urls fans rpms pwms,
      truthy fans_url = true ->
      connect_server col fans_url = Ok collection ->
      py_get collection "Members" (PList []) = Ok listed ->
      py_iter listed = Ok members ->
      Forall2 (fun member url => py_getitem member "@odata.id" = Ok url)
        members member_urls ->
      Forall2 (fun url fan => connect_server col url = Ok fan) member_urls fans ->
      Forall2 (fun fan rpm => _rpm_from_fan fan = Ok rpm) fans rpms ->
      Forall2 (fun fan pwm => _pwm_from_fan fan = Ok pwm) fans pwms ->
      fan_subsystem_pass col (rv, pv) s =
      (Ok (rv ++ present rpms, pv ++ present pwms),
       grow s [] [] (urls col "ThermalSubsystem" :: fans_url :: member_urls))).
Proof.
  intros Hpresent Hts Hpointer Hurl.
  assert (Hstart : forall k : pyval -> M (list pyval * list pyval),
             (ts_data <- connect col (urls col "ThermalSubsystem") ;;
              pointer <- lift (py_get ts_data "Fans" (PDict [])) ;;
              fans_url <- lift (py_get pointer "@odata.id" PNone) ;;
              k fans_url) s =
             k fans_url
               (mkState (power_metrics s) (temperature_metrics s) (fan_speed_metrics s)
                  (fan_pwm_metrics s) (log s) (requests s ++ [urls col "ThermalSubsystem"]))).
  { intros k. unfold bind at 1, connect. rewrite Hts.
    now rewrite bind_lift, Hpointer, bind_lift, Hurl. }
  unfold fan_subsystem_pass. rewrite Hpresent. split.
  - intros Hfalsy. rewrite Hstart, Hfalsy. unfold ret.
    now rewrite <- (grow_fetch s (urls col "ThermalSubsystem") []), grow_nothing.
  - intros collection listed members member_urls fans rpms pwms
      Htruthy Hcollection Hlisted Hiter Hurls Hfans Hrpms Hpwms.
    rewrite Hstart, Htruthy. unfold bind at 1, connect at 1. rewrite Hcollection.
    rewrite bind_lift, Hlisted, bind_lift, Hiter.
    rewrite (fan_member_loop col _ _ _ Hurls Hfans Hrpms Hpwms).
    now rewrite !grow_fetch.
Qed.

Lemma fan_subsystem_walk_witness :
  fst (fan_subsystem_pass both_fan_schemas ([], []) initial_state) =
  Ok ([], [PFloat (float_of_Z 50)]).
Proof.
  destruct (@fan_subsystem_walk both_fan_schemas [] [] initial_state
              (PDict [("Fans", link "/ts/fans"); ("ThermalMetrics", link "/ts/metrics")])
              (link "/ts/fans") (PStr "/ts/fans") eq_refl eq_refl eq_refl eq_refl)
    as [_ H].
  rewrite (H (PDict [("Members", PList [link "/ts/fans/1"])])
             (PList [link "/ts/fans/1"]) [link "/ts/fans/1"] [PStr "/ts/fans/1"]
             [PDict [("DutyCyclePercent", PInt 50)]] [PNone] [PFloat (float_of_Z 50)]
             eq_refl eq_refl eq_refl eq_refl);
    repeat constructor.
Defined.

(** ** Thermal reconciliation on resources with missing keys *)

Lemma for_each_app A (xs ys : list A) (body : A -> M unit) s :
  for_each (xs ++ ys) body s =
  match fst (for_each xs body s) with
  | Ok _ => for_each ys body (snd (for_each xs body s))
  | Raise e => (Raise e, snd (for_each xs body s))
  end.
Proof.
  revert s. induction xs as [|x xs IH]; intros s; cbn [app for_each]; [reflexivity|].
  rewrite !bind_run. destruct (fst (body x s)); [apply IH | reflexivity].
Qed.

(** X12: a summary entry that is an object without a [Reading] key makes
    thermal reconciliation raise [KeyError]; the samples of the entries
    before it are already in the temperature gauge and stay there, the
    entries after it are not reached. *)
Theorem thermal_entry_without_reading col s ts pointer url result before name entry after :
  truthy (urls col "ThermalSubsystem") = true ->
  connect_server col (urls col "ThermalSubsystem") = Ok (PDict ts) ->
  dict_get "ThermalMetrics" ts = Some (PDict pointer) ->
  dict_get "@odata.id" pointer = Some url ->
  connect_server col url = Ok (PDict result) ->
  dict_get "TemperatureSummaryCelsius" result =
    Some (PDict (before ++ (name, PDict entry) :: after)) ->
  dict_wf (before ++ (name, PDict entry) :: after) ->
  Forall (fun kv => has_reading (snd kv) = true) before ->
  dict_get "Reading" entry = None ->
  get_temp_metrics col s =
  (Raise KeyError,
   after_thermal col s [urls col "ThermalSubsystem"; url]
     (map (summary_sample (labels col)) before)).
Proof.
  intros Hpresent Hts Hpointer Hurl Hresult Hsummary Hwf Hbefore Hnone.
  set (summary := before ++ (name, PDict entry) :: after) in *.
  unfold get_temp_metrics. rewrite bind_logging, Hpresent. unfold connect.
  rewrite bind_run. cbn [fst snd]. rewrite Hts.
  rewrite bind_lift. unfold py_getitem at 1. cbn [py_index]. rewrite Hpointer.
  rewrite bind_lift. unfold py_getitem at 1. cbn [py_index]. rewrite Hurl.
  rewrite bind_run. cbn [fst snd]. rewrite Hresult.
  rewrite bind_lift. cbn [py_get]. rewrite Hsummary.
  rewrite bind_lift. cbn [py_iter].
  unfold summary at 1. unfold dict_keys. rewrite !map_app. cbn [map fst].
  rewrite for_each_app. fold (dict_keys before).
  rewrite (@summary_loop col summary before).
  - cbn [fst snd for_each]. rewrite bind_run, bind_lift. cbn [py_index].
    rewrite (@dict_get_in_wf summary name (PDict entry) Hwf)
      by (unfold summary; apply in_or_app; right; now left).
    rewrite bind_lift. unfold py_getitem. cbn [py_index]. rewrite Hnone.
    unfold after_thermal, logging. cbn [fst snd power_metrics temperature_metrics
      fan_speed_metrics fan_pwm_metrics log requests].
    now rewrite <- app_assoc.
  - intros [k v] Hin. apply dict_get_in_wf; [exact Hwf|].
    unfold summary. apply in_or_app. now left.
  - exact Hbefore.
Qed.

Lemma thermal_entry_without_reading_witness :
  fst (get_temp_metrics
         (target_of [("ThermalSubsystem", PStr "/ts")]
            [("/ts", PDict [("ThermalMetrics", link "/ts/metrics")]);
             ("/ts/metrics",
              PDict [("TemperatureSummaryCelsius",
                      PDict [("CPU", PDict [("Reading", PInt 45)]);
                             ("Exhaust", PDict [("Status", PStr "Absent")])])])])
         initial_state) = Raise KeyError.
Proof.
  rewrite (@thermal_entry_without_reading
             (target_of [("ThermalSubsystem", PStr "/ts")]
                [("/ts", PDict [("ThermalMetrics", link "/ts/metrics")]);
                 ("/ts/metrics",
                  PDict [("TemperatureSummaryCelsius",
                          PDict [("CPU", PDict [("Reading", PInt 45)]);
                                 ("Exhaust", PDict [("Status", PStr "Absent")])])])])
             initial_state
             [("ThermalMetrics", link "/ts/metrics")]
             [("@odata.id", PStr "/ts/metrics")] (PStr "/ts/metrics")
             [("TemperatureSummaryCelsius",
               PDict [("CPU", PDict [("Reading", PInt 45)]);
                      ("Exhaust", PDict [("Status", PStr "Absent")])])]
             [("CPU", PDict [("Reading", PInt 45)])] "Exhaust"
             [("Status", PStr "Absent")] []
             eq_refl eq_refl eq_refl eq_refl eq_refl eq_refl).
  - reflexivity.
  - repeat constructor; simpl; intuition discriminate.
  - repeat constructor.
  - reflexivity.
Defined.

(** X13: the two ends of a thermal pass that finds no summary. A
    [ThermalSubsystem] resource without a [ThermalMetrics] key raises
    [KeyError] after its one fetch; a [ThermalMetrics] resource without a
    [TemperatureSummaryCelsius] key gives no sample, no warning and no
    error. *)
Theorem thermal_without_summary col s ts :
  truthy (urls col "ThermalSubsystem") = true ->
  connect_server col (urls col "ThermalSubsystem") = Ok (PDict ts) ->
  (dict_get "ThermalMetrics" ts = None ->
   get_temp_metrics col s =
   (Raise KeyError, after_thermal col s [urls col "ThermalSubsystem"] [])) /\
  (forall pointer url result,
      dict_get "ThermalMetrics" ts = Some (PDict pointer) ->
      dict_get "@odata.id" pointer = Some url ->
      connect_server col url = Ok (PDict result) ->
      dict_get "TemperatureSummaryCelsius" result = None ->
      get_temp_metrics col s =
      (Ok tt, after_thermal col s [urls col "ThermalSubsystem"; url] [])).
Proof.
  intros Hpresent Hts.
  split.
  - intros Hnone. unfold get_temp_metrics. rewrite bind_logging, Hpresent. unfold connect.
    rewrite bind_run. cbn [fst snd]. rewrite Hts.
    rewrite bind_lift. unfold py_getitem at 1. cbn [py_index]. rewrite Hnone.
    unfold after_thermal, logging. cbn. now rewrite app_nil_r.
  - intros pointer url result Hpointer Hurl Hresult Hnone.
    unfold get_temp_metrics. rewrite bind_logging, Hpresent. unfold connect.
    rewrite bind_run. cbn [fst snd]. rewrite Hts.
    rewrite bind_lift. unfold py_getitem at 1. cbn [py_index]. rewrite Hpointer.
    rewrite bind_lift. unfold py_getitem at 1. cbn [py_index]. rewrite Hurl.
    rewrite bind_run. cbn [fst snd]. rewrite Hresult.
    rewrite bind_lift. cbn [py_get]. rewrite Hnone.
    rewrite bind_lift. cbn [py_iter dict_keys map for_each].
    unfold after_thermal, logging, ret. cbn. now rewrite app_nil_r, <- app_assoc.
Qed.

Lemma thermal_without_summary_witness :
  fst (get_temp_metrics no_thermal_metrics initial_state) = Raise KeyError.
Proof.
  destruct (@thermal_without_summary no_thermal_metrics initial_state
              [("Name", PStr "Thermal Subsystem")] eq_refl eq_refl) as [H _].
  rewrite (H eq_refl). reflexivity.
Defined.

(** ** Nothing is removed *)

Lemma extends_refl s : extends s s.
Proof. repeat split; exists []; now rewrite app_nil_r. Qed.

(** the side conditions of [extends]: every step appends to one list *)
Ltac appends :=
  intros;
  first
    [ exact I
    | let s1 := fresh "s" in
      let H := fresh "H" in
      intros s1 H; split; [| intros; exact I];
      destruct H as ([m1 H1] & [m2 H2] & [m3 H3] & [m4 H4] & [m5 H5] & [m6 H6]);
      unfold extends; cbn [snd logging connect add_power_sample add_temperature_sample
        add_fan_speed_sample add_fan_pwm_sample power_metrics temperature_metrics
        fan_speed_metrics fan_pwm_metrics log requests];
      rewrite ?H1, ?H2, ?H3, ?H4, ?H5, ?H6, <- ?app_assoc;
      repeat split; eexists; reflexivity ].

(** X14: a cycle only appends. Whatever the target answers and whether
    or not a pass raises, every sample, log record and request that was
    there before [collect], or before one of its passes, is still there
    afterwards, in the same place. *)
Theorem collect_only_appends col s :
  extends s (snd (get_power_metrics col s)) /\
  extends s (snd (get_temp_metrics col s)) /\
  extends s (snd (get_fan_metrics col s)) /\
  extends s (snd (collect col s)).
Proof.
  assert (K1 : keeps (extends s) anything (get_power_metrics col))
    by (apply get_power_metrics_keeps with (good := fun _ => True); appends).
  assert (K2 : keeps (extends s) anything (get_temp_metrics col))
    by (apply get_temp_metrics_keeps with (good := fun _ => True); appends).
  assert (K3 : keeps (extends s) anything (get_fan_metrics col))
    by (apply get_fan_metrics_keeps with (good := fun _ => True); appends).
  assert (K4 : keeps (extends s) anything (collect col))
    by (apply collect_keeps with (good := fun _ => True); appends).
  pose proof (extends_refl s) as H0.
  split; [exact (proj1 (K1 s H0))|]. split; [exact (proj1 (K2 s H0))|].
  split; [exact (proj1 (K3 s H0)) | exact (proj1 (K4 s H0))].
Qed.

(** ** Fan reconciliation from the deprecated schema alone *)

(** X15: on a target that advertises [Thermal] and no [ThermalSubsystem],
    fan reconciliation makes one fetch and averages the values of the
    inline [Fans] array of the [Thermal] resource, each fan contributing
    its RPM and its PWM value when it has one; a resource without [Fans]
    counts as one without fans. *)
Theorem fans_from_thermal_only col s thermal listed fans rpms pwms :
  truthy (urls col "ThermalSubsystem") = false ->
  truthy (urls col "Thermal") = true ->
  connect_server col (urls col "Thermal") = Ok thermal ->
  py_get thermal "Fans" (PList []) = Ok listed ->
  py_iter listed = Ok fans ->
  Forall2 (fun fan rpm => _rpm_from_fan fan = Ok rpm) fans rpms ->
  Forall2 (fun fan pwm => _pwm_from_fan fan = Ok pwm) fans pwms ->
  get_fan_metrics col s =
  fan_averages col (present rpms, present pwms)
    (grow s [] [mkLog INFO "Target %s: Gathering fan data …" [PStr (target col)]]
       [urls col "Thermal"]).
Proof.
  intros Hts Ht Hthermal Hlisted Hfans Hrpms Hpwms.
  assert (Hmodern : forall s0, fan_subsystem_pass col ([], []) s0 = (Ok ([], []), s0)).
  { intros s0. unfold fan_subsystem_pass. now rewrite Hts. }
  assert (Hfallback : forall s0,
             fan_thermal_pass col ([], []) s0 =
             (Ok (present rpms, present pwms),
              mkState (power_metrics s0) (temperature_metrics s0) (fan_speed_metrics s0)
                (fan_pwm_metrics s0) (log s0) (requests s0 ++ [urls col "Thermal"]))).
  { intros s0. unfold fan_thermal_pass. cbn [fst truthy negb andb]. rewrite Ht.
    unfold bind at 1, connect. rewrite Hthermal.
    rewrite bind_lift, Hlisted, bind_lift, Hfans.
    now rewrite (for_fold_append_fan_all [] [] _ Hrpms Hpwms). }
  unfold get_fan_metrics.
  rewrite bind_logging, bind_run, Hmodern. cbn [fst snd].
  rewrite bind_run, Hfallback. cbn [fst snd].
  unfold grow, logging. cbn. now rewrite app_nil_r.
Qed.

Lemma fans_from_thermal_only_witness :
  map sample_value
    (fan_speed_metrics (snd (get_fan_metrics deprecated_thermal_only initial_state))) =
  [PFloat (float_of_Z 1000)].
Proof.
  rewrite (@fans_from_thermal_only deprecated_thermal_only initial_state
             (PDict [("Fans",
                      PList [PDict [("ReadingRPM", PInt 1000);
                                    ("DutyCyclePercent", PInt 100)]])])
             (PList [PDict [("ReadingRPM", PInt 1000); ("DutyCyclePercent", PInt 100)]])
             [PDict [("ReadingRPM", PInt 1000); ("DutyCyclePercent", PInt 100)]]
             [PInt 1000] [PFloat (float_of_Z 100)] eq_refl eq_refl eq_refl eq_refl eq_refl).
  - reflexivity.
  - repeat constructor.
  - repeat constructor.
Defined.
